(** * FocusTrap (headlessui, Vue): a shallow embedding of
    [packages/@headlessui-vue/src/components/focus-trap/focus-trap.ts]

    The component confines keyboard focus to a region of the document.  The
    file embeds the feature bitmask, the three composition functions
    ([useRestoreFocus], [useInitialFocus], [useFocusLock]), the handlers of
    the component ([handleFocus], [handleKeyDown], [handleBlur]), its render
    function and the helper [contains], and proves the behaviour the
    specification states for them.

    The browser and the imported helpers ([focusIn], [focusElement], the
    [Focus] flags) are interfaces: every handler is defined over any
    implementation of them, and a small concrete page implements them so that
    every statement can be run on an example. *)

From Stdlib Require Import ZArith List Bool Lia String.
Import ListNotations.
Local Open Scope Z_scope.

(** ** JavaScript bit operations on integral numbers

    [<<], [|] and [&] convert their operands to 32-bit signed integers. *)

Definition ToInt32 (z : Z) : Z := (z + 2 ^ 31) mod 2 ^ 32 - 2 ^ 31.

Definition js_shl (a b : Z) : Z := ToInt32 (Z.shiftl (ToInt32 a) (b mod 32)).
Definition js_bor (a b : Z) : Z := Z.lor (ToInt32 a) (ToInt32 b).
Definition js_band (a b : Z) : Z := Z.land (ToInt32 a) (ToInt32 b).

(** [Boolean(n)] for an integral number. *)
Definition Boolean (n : Z) : bool := negb (n =? 0).

(** ** [enum Features] *)

Module Features.
Definition InitialFocus : Z := js_shl 1 1.
Definition TabLock : Z := js_shl 1 2.
Definition FocusLock : Z := js_shl 1 3.
Definition RestoreFocus : Z := js_shl 1 4.
Definition All : Z :=
  js_bor (js_bor (js_bor InitialFocus TabLock) FocusLock) RestoreFocus.
(** Declared first in the source; it is last here only because its name
    hides the constructor of [option] in the rest of the module. *)
Definition None : Z := js_shl 1 0.
End Features.

(** [Boolean(props.features & flag)] *)
Definition feature_enabled (features flag : Z) : bool :=
  Boolean (js_band features flag).

(** The four features, [None] and [All] apart. *)
Definition feature_flags : list Z :=
  [Features.InitialFocus; Features.TabLock; Features.FocusLock;
   Features.RestoreFocus].




(** ** Elements, references, events *)

(** A DOM node (or any other event target) is known by its identity. *)
Definition Element := nat.

Definition Element_eqb : Element -> Element -> bool := Nat.eqb.

(** [a === b] on values of type [HTMLElement | null]. *)
Definition strict_eq (a b : option Element) : bool :=
  match a, b with
  | Some x, Some y => Element_eqb x y
  | None, None => true
  | _, _ => false
  end.

(** [TabDirection] of the [useTabDirection] hook. *)
Inductive Direction := Forwards | Backwards.

(** Modelled from the spec: [FocusResult] of [utils/focus-management], a
    module outside the component file; the focus walker "returns success or
    no-candidate-found". *)
Inductive FocusResult := FocusResult_Success | FocusResult_Error.

(** The options object handed to [focusIn]. *)
Record FocusOptions := {
  relativeTo : option Element;
  skipElements : list (option Element)
}.

Definition no_options : FocusOptions :=
  {| relativeTo := None; skipElements := [] |}.

(** A [FocusEvent]: only [target] and [relatedTarget] are read. *)
Record FocusEvent := {
  target : option Element;
  relatedTarget : option Element
}.

(** A [KeyboardEvent]: only [key] is read. *)
Record KeyboardEvent := { key : string }.

(** A [Ref<HTMLElement | null>] is either the trap's own [container] ref or a
    ref owned by somebody else. *)
Inductive ElementRef := OwnContainer | ExternalRef (n : nat).

Definition ElementRef_eqb (a b : ElementRef) : bool :=
  match a, b with
  | OwnContainer, OwnContainer => true
  | ExternalRef n, ExternalRef m => Nat.eqb n m
  | _, _ => false
  end.

(** A JavaScript [Set] keeps insertion order and holds no element twice. *)
Definition Set_add (r : ElementRef) (s : list ElementRef) : list ElementRef :=
  if existsb (ElementRef_eqb r) s then s else s ++ [r].

Definition new_Set (items : list ElementRef) : list ElementRef :=
  fold_left (fun s r => Set_add r s) items [].

(** The props of the component ([as] is of no concern here).  [externalRefs]
    gives the current value of the refs the trap does not own. *)
Record Props := {
  initialFocus : option Element;
  features : Z;
  containers : list ElementRef;
  externalRefs : nat -> option Element
}.

(** What the outside world can observe of a handler. *)
Inductive Effect :=
| FocusElementCall (el : option Element)
| FocusInCall (root : option Element) (focus : Z) (options : FocusOptions)
| PreventDefault
| StopPropagation
| ConsoleWarn (message : string).

(** The effects that ask the browser to move focus. *)
Definition is_focus_call (e : Effect) : bool :=
  match e with
  | FocusElementCall _ | FocusInCall _ _ _ => true
  | _ => false
  end.

(** Callbacks handed to [microTask]; each constructor is one closure of the
    source together with the variables it captures. *)
Inductive Task :=
| InitialFocusTask (containerElement : Element)
| SentinelTask (el : Element) (e : FocusEvent).

(** ** The interfaces the component is written against *)

(** The browser. *)
Class Dom (Document : Type) := {
  (** [document.activeElement] *)
  activeElement : Document -> option Element;
  (** [node.contains(other)] for a node [other] *)
  node_contains : Document -> Element -> Element -> bool;
  (** [x instanceof HTMLElement] *)
  instanceofHTMLElement : Document -> Element -> bool;
  (** [x.dataset.headlessuiFocusGuard === 'true'] *)
  headlessuiFocusGuard : Document -> Element -> bool
}.

(** [utils/focus-management]: the flags of [Focus] and the two functions the
    component calls.  Their code lives outside the component file, so they
    are parameters. *)
Class FocusManagement (Document : Type) := {
  Focus_First : Z;
  Focus_Previous : Z;
  Focus_Next : Z;
  Focus_Last : Z;
  Focus_WrapAround : Z;
  Focus_NoScroll : Z;
  focusElement : option Element -> Document -> Document;
  focusIn : option Element -> Z -> FocusOptions -> Document ->
            FocusResult * Document
}.

Section FocusTrap.

Context {Document : Type} `{Dom Document} `{FocusManagement Document}.

(** The refs of one component instance, and its surroundings. *)
Record State := mkState {
  container : option Element;
  restoreElement : option Element;
  previousActiveElement : option Element;
  mounted : bool;
  recentlyUsedTabKey : bool;
  direction : Direction;
  document : Document;
  microTasks : list Task;
  animationFrames : nat;
  trace : list Effect
}.

Definition set_restoreElement (v : option Element) (st : State) : State :=
  mkState (container st) v (previousActiveElement st) (mounted st)
          (recentlyUsedTabKey st) (direction st) (document st)
          (microTasks st) (animationFrames st) (trace st).

Definition set_previousActiveElement (v : option Element) (st : State)
  : State :=
  mkState (container st) (restoreElement st) v (mounted st)
          (recentlyUsedTabKey st) (direction st) (document st)
          (microTasks st) (animationFrames st) (trace st).

Definition set_mounted (v : bool) (st : State) : State :=
  mkState (container st) (restoreElement st) (previousActiveElement st) v
          (recentlyUsedTabKey st) (direction st) (document st)
          (microTasks st) (animationFrames st) (trace st).

Definition set_recentlyUsedTabKey (v : bool) (st : State) : State :=
  mkState (container st) (restoreElement st) (previousActiveElement st)
          (mounted st) v (direction st) (document st)
          (microTasks st) (animationFrames st) (trace st).

Definition set_document (d : Document) (st : State) : State :=
  mkState (container st) (restoreElement st) (previousActiveElement st)
          (mounted st) (recentlyUsedTabKey st) (direction st) d
          (microTasks st) (animationFrames st) (trace st).

Definition set_microTasks (q : list Task) (st : State) : State :=
  mkState (container st) (restoreElement st) (previousActiveElement st)
          (mounted st) (recentlyUsedTabKey st) (direction st) (document st)
          q (animationFrames st) (trace st).

Definition set_animationFrames (n : nat) (st : State) : State :=
  mkState (container st) (restoreElement st) (previousActiveElement st)
          (mounted st) (recentlyUsedTabKey st) (direction st) (document st)
          (microTasks st) n (trace st).

Definition emit (e : Effect) (st : State) : State :=
  mkState (container st) (restoreElement st) (previousActiveElement st)
          (mounted st) (recentlyUsedTabKey st) (direction st) (document st)
          (microTasks st) (animationFrames st) (trace st ++ [e]).

(** *** Calls that leave the component *)

Definition call_focusElement (el : option Element) (st : State) : State :=
  emit (FocusElementCall el) (set_document (focusElement el (document st)) st).

Definition call_focusIn (root : option Element) (focus : Z)
  (options : FocusOptions) (st : State) : FocusResult * State :=
  let '(result, d) := focusIn root focus options (document st) in
  (result, emit (FocusInCall root focus options) (set_document d st)).

Definition microTask (t : Task) (st : State) : State :=
  set_microTasks (microTasks st ++ [t]) st.

Definition requestAnimationFrame (st : State) : State :=
  set_animationFrames (S (animationFrames st)) st.

(** *** [contains] *)

(** [ref.value] *)
Definition value (props : Props) (st : State) (r : ElementRef)
  : option Element :=
  match r with
  | OwnContainer => container st
  | ExternalRef n => externalRefs props n
  end.

(** [containers]: the set, [element]: the node looked for. *)
Definition contains (props : Props) (st : State)
  (containers : list ElementRef) (element : Element) : bool :=
  existsb (fun c =>
             match value props st c with
             | Some node => node_contains (document st) node element
             | None => false
             end) containers.

(** [new Set(props.containers?.value)] followed by [.add(container)] *)
Definition allContainers (props : Props) : list ElementRef :=
  Set_add OwnContainer (new_Set (containers props)).

(** *** [useRestoreFocus] *)

Definition captureFocus (st : State) : State :=
  match restoreElement st with
  | Some _ => st
  | None => set_restoreElement (activeElement (document st)) st
  end.

Definition restoreFocusIfNeeded (st : State) : State :=
  match restoreElement st with
  | None => st
  | Some el => set_restoreElement None (call_focusElement (Some el) st)
  end.

(** The callback of [watch(enabled, ..., { immediate: true })];
    [prevValue] is [None] for the immediate call, where the source gets
    [undefined]. *)
Definition useRestoreFocus_watch (newValue : bool) (prevValue : option bool)
  (st : State) : State :=
  let same := match prevValue with
              | Some p => Bool.eqb newValue p
              | None => false
              end in
  if same then st
  else if newValue then captureFocus st
  else restoreFocusIfNeeded st.

Definition useRestoreFocus_onUnmounted (st : State) : State :=
  restoreFocusIfNeeded st.

(** *** [useInitialFocus] *)

Definition no_focusable_warning : string :=
  "There are no focusable elements inside the <FocusTrap />".

(** [containerElement.contains(activeElement)]: the DOM answers [false]
    for [null]. *)
Definition contains_active (d : Document) (containerElement : Element)
  (active : option Element) : bool :=
  match active with
  | Some a => node_contains d containerElement a
  | None => false
  end.

(** Lines 280-289: try to focus, then record the active element. *)
Definition useInitialFocus_tryFocus (initialFocusElement : option Element)
  (containerElement : Element) (st : State) : State :=
  let st1 :=
    match initialFocusElement with
    | Some el => call_focusElement (Some el) st
    | None =>
        let '(result, st') :=
          call_focusIn (Some containerElement)
                       (js_bor Focus_First Focus_NoScroll) no_options st in
        match result with
        | FocusResult_Error => emit (ConsoleWarn no_focusable_warning) st'
        | FocusResult_Success => st'
        end
    end in
  set_previousActiveElement (activeElement (document st1)) st1.

(** The callback handed to [microTask]; [containerElement] was read when
    the callback was created, everything else is read when it runs. *)
Definition useInitialFocus_microTask (props : Props)
  (containerElement : Element) (st : State) : State :=
  if negb (mounted st) then st
  else
    let initialFocusElement := initialFocus props in
    let active := activeElement (document st) in
    match initialFocusElement with
    | Some el =>
        if strict_eq (Some el) active
        then set_previousActiveElement active st
        else useInitialFocus_tryFocus initialFocusElement containerElement st
    | None =>
        if contains_active (document st) containerElement active
        then set_previousActiveElement active st
        else useInitialFocus_tryFocus initialFocusElement containerElement st
    end.

(** The values of [[container, initialFocus, enabled]]. *)
Definition Watched : Type := (option Element * option Element * bool)%type.

Definition Watched_eqb (a b : Watched) : bool :=
  let '(c1, i1, e1) := a in
  let '(c2, i2, e2) := b in
  strict_eq c1 c2 && strict_eq i1 i2 && Bool.eqb e1 e2.

(** The callback of the [watch] of [useInitialFocus]. *)
Definition useInitialFocus_watch (enabled : bool) (newValues : Watched)
  (prevValues : option Watched) (st : State) : State :=
  let unchanged := match prevValues with
                   | Some p => Watched_eqb p newValues
                   | None => false
                   end in
  if unchanged then st
  else if negb enabled then st
  else match container st with
       | None => st
       | Some containerElement =>
           microTask (InitialFocusTask containerElement) st
       end.

(** *** [useFocusLock] *)

(** The capturing [focus] listener on the window. *)
Definition useFocusLock_listener (enabled : bool) (props : Props)
  (event : FocusEvent) (st : State) : State :=
  if negb enabled then st
  else
    let allContainers := allContainers props in
    match previousActiveElement st with
    | None => st
    | Some previous =>
        let refocus := call_focusElement (previousActiveElement st) st in
        match target event with
        | None => refocus
        | Some toElement =>
            if instanceofHTMLElement (document st) toElement then
              if negb (contains props st allContainers toElement) then
                call_focusElement (Some previous)
                  (emit StopPropagation (emit PreventDefault st))
              else
                call_focusElement (Some toElement)
                  (set_previousActiveElement (Some toElement) st)
            else refocus
        end
    end.

(** *** The handlers of the component *)

(** The callback of [handleFocus], lines 91-96. *)
Definition handleFocus_redirect (el : Element) (e : FocusEvent)
  (st : State) : State :=
  let options :=
    {| relativeTo := None; skipElements := [relatedTarget e] |} in
  match direction st with
  | Forwards => snd (call_focusIn (Some el) Focus_First options st)
  | Backwards => snd (call_focusIn (Some el) Focus_Last options st)
  end.

(** [NODE_ENV_test] stands for [process.env.NODE_ENV === 'test']. *)
Definition handleFocus (NODE_ENV_test : bool) (e : FocusEvent) (st : State)
  : State :=
  match container st with
  | None => st
  | Some el =>
      if NODE_ENV_test then microTask (SentinelTask el e) st
      else handleFocus_redirect el e st
  end.

Definition handleKeyDown (e : KeyboardEvent) (st : State) : State :=
  if String.eqb (key e) "Tab"
  then requestAnimationFrame (set_recentlyUsedTabKey true st)
  else st.

Definition handleBlur (props : Props) (e : FocusEvent) (st : State)
  : State :=
  let allContainers := allContainers props in
  match relatedTarget e with
  | None => st
  | Some relatedTarget =>
      if headlessuiFocusGuard (document st) relatedTarget then st
      else if negb (contains props st allContainers relatedTarget) then
        if recentlyUsedTabKey st then
          snd (call_focusIn
                 (container st)
                 (js_bor (match direction st with
                          | Forwards => Focus_Next
                          | Backwards => Focus_Previous
                          end) Focus_WrapAround)
                 {| relativeTo := target e; skipElements := [] |} st)
        else
          match target e with
          | Some t =>
              if instanceofHTMLElement (document st) t
              then call_focusElement (Some t) st
              else st
          | None => st
          end
      else st
  end.

(** *** The render function *)

(** The children of the fragment: the hidden button that guards one end of
    the trap, the trap root, or the [false] Vue renders nothing for. *)
Inductive VNode := FocusGuard | TrapRoot | Nothing.

Definition render (props : Props) : list VNode :=
  let guard := if feature_enabled (features props) Features.TabLock
               then FocusGuard else Nothing in
  [guard; TrapRoot; guard].

(** *** The event loop and the life cycle *)

Definition runTask (props : Props) (t : Task) (st : State) : State :=
  match t with
  | InitialFocusTask containerElement =>
      useInitialFocus_microTask props containerElement st
  | SentinelTask el e => handleFocus_redirect el e st
  end.

(** Runs the oldest pending microtask. *)
Definition runMicroTask (props : Props) (st : State) : State :=
  match microTasks st with
  | [] => st
  | t :: rest => runTask props t (set_microTasks rest st)
  end.

(** The callback given to [requestAnimationFrame] by [handleKeyDown]. *)
Definition runAnimationFrame (st : State) : State :=
  match animationFrames st with
  | O => st
  | S n => set_recentlyUsedTabKey false (set_animationFrames n st)
  end.

(** The [onMounted] hooks, in the order [setup] registers them. *)
Definition onMounted (props : Props) (st : State) : State :=
  let st1 :=
    useRestoreFocus_watch
      (feature_enabled (features props) Features.RestoreFocus) None st in
  let st2 := set_mounted true st1 in
  let enabled := feature_enabled (features props) Features.InitialFocus in
  useInitialFocus_watch enabled
    (container st2, initialFocus props, enabled) None st2.

(** The [onUnmounted] hooks, in the order [setup] registers them. *)
Definition onUnmounted (st : State) : State :=
  set_mounted false (useRestoreFocus_onUnmounted st).

(** The listener of [useFocusLock] as [setup] installs it. *)
Definition FocusTrap_onFocus (props : Props) : FocusEvent -> State -> State :=
  useFocusLock_listener
    (feature_enabled (features props) Features.FocusLock) props.

(** *** Everything that can happen to a mounted trap

    One constructor for each callback the component registers: the window
    [focus] listener, the [onFocus] of a guard, [onKeydown] and [onFocusout]
    of the root, a microtask or an animation frame coming due, the two
    [watch] callbacks and the two life-cycle hooks. *)
Inductive Op :=
| WindowFocus (event : FocusEvent)
| GuardFocus (NODE_ENV_test : bool) (e : FocusEvent)
| KeyDown (e : KeyboardEvent)
| FocusOut (e : FocusEvent)
| MicroTaskDue
| AnimationFrameDue
| InitialFocusWatch (newValues : Watched) (prevValues : option Watched)
| RestoreFocusWatch (newValue : bool) (prevValue : option bool)
| OnMounted
| OnUnmounted.

Definition step (props : Props) (op : Op) (st : State) : State :=
  match op with
  | WindowFocus event => FocusTrap_onFocus props event st
  | GuardFocus NODE_ENV_test e => handleFocus NODE_ENV_test e st
  | KeyDown e => handleKeyDown e st
  | FocusOut e => handleBlur props e st
  | MicroTaskDue => runMicroTask props st
  | AnimationFrameDue => runAnimationFrame st
  | InitialFocusWatch newValues prevValues =>
      useInitialFocus_watch
        (feature_enabled (features props) Features.InitialFocus)
        newValues prevValues st
  | RestoreFocusWatch newValue prevValue =>
      useRestoreFocus_watch newValue prevValue st
  | OnMounted => onMounted props st
  | OnUnmounted => onUnmounted st
  end.

(** A history: each callback with the props of its moment. *)
Definition run (history : list (Props * Op)) (st : State) : State :=
  fold_left (fun s po => step (fst po) (snd po) s) history st.

(** The callbacks that belong to [useRestoreFocus]. *)
Definition restore_focus_op (op : Op) : bool :=
  match op with
  | RestoreFocusWatch _ _ | OnMounted | OnUnmounted => true
  | _ => false
  end.

(** The trace [after] continues the trace [before] with at most one call
    that moves focus. *)
Definition at_most_one_focus_call (before after : list Effect) : Prop :=
  exists es,
    after = before ++ es
    /\ (List.length (filter is_focus_call es) <= 1)%nat.

(** *** The vocabulary of the specification *)

(** "The effective container set = extra containers plus the trap
    container", and "direct DOM containment by any member". *)
Definition inside_container_set (props : Props) (st : State)
  (x : Element) : Prop :=
  exists r node,
    (r = OwnContainer \/ In r (containers props))
    /\ value props st r = Some node
    /\ node_contains (document st) node x = true.

(** C1 as the specification words it: with the lock enabled and an element
    recorded, a focus event whose target is an element is settled by
    containment alone, whatever kind of element the target is. *)
Definition focus_lock_settles_any_element : Prop :=
  forall (props : Props) (event : FocusEvent) (st : State)
         (previous toElement : Element),
    feature_enabled (features props) Features.FocusLock = true ->
    previousActiveElement st = Some previous ->
    target event = Some toElement ->
    let st' := useFocusLock_listener
                 (feature_enabled (features props) Features.FocusLock)
                 props event st in
    (~ inside_container_set props st toElement ->
     trace st' = trace st ++ [PreventDefault; StopPropagation;
                              FocusElementCall (Some previous)])
    /\ (inside_container_set props st toElement ->
        previousActiveElement st' = Some toElement
        /\ trace st' = trace st ++ [FocusElementCall (Some toElement)]).

(** C2 as the specification words it: whatever operation makes Previous
    Active Element non-null, the element was verified to lie within the
    container set, by a containment check or by being the initial-focus
    target.  The two operations that assign the reference are the listener
    of [useFocusLock] and the deferred decision of [useInitialFocus]. *)
Definition previous_always_verified : Prop :=
  forall (props : Props) (st : State) (x : Element),
    (forall event,
        let st' := useFocusLock_listener
                     (feature_enabled (features props) Features.FocusLock)
                     props event st in
        previousActiveElement st' = Some x ->
        previousActiveElement st' <> previousActiveElement st ->
        inside_container_set props st x \/ initialFocus props = Some x)
    /\ (forall containerElement,
           container st = Some containerElement ->
           let st' := useInitialFocus_microTask props containerElement st in
           previousActiveElement st' = Some x ->
           previousActiveElement st' <> previousActiveElement st ->
           inside_container_set props st' x \/ initialFocus props = Some x).

(** C6, its last clause as the specification words it: a focus-out that
    leaves the container set without the Tab key moves focus straight back
    onto the target of the event, whatever that target is. *)
Definition blur_refocuses_any_target : Prop :=
  forall (props : Props) (e : FocusEvent) (st : State) relatedTarget',
    relatedTarget e = Some relatedTarget' ->
    headlessuiFocusGuard (document st) relatedTarget' = false ->
    ~ inside_container_set props st relatedTarget' ->
    recentlyUsedTabKey st = false ->
    trace (handleBlur props e st)
    = trace st ++ [FocusElementCall (target e)].

End FocusTrap.

Arguments State Document : clear implicits.

(** ** What the specification promises of the focus walker

    Modelled from the spec: the sequential focus walker is an external
    capability, "find next/previous/first/last focusable element within a
    root, optionally skipping given elements, optionally wrapping, optionally
    without scrolling - returns success or no-candidate-found".  Only the
    part about [Focus.First] is needed below. *)
Class FocusWalkerContract (Document : Type)
  `{Dom Document} `{FocusManagement Document} := {
  (** the focusable descendants of a root, in the order of the walker *)
  focusable_in : Document -> Element -> list Element;
  focusIn_First_found : forall d root x rest,
    focusable_in d root = x :: rest ->
    exists d',
      focusIn (Some root) (js_bor Focus_First Focus_NoScroll) no_options d
      = (FocusResult_Success, d')
      /\ activeElement d' = Some x;
  focusIn_First_none : forall d root,
    focusable_in d root = [] ->
    focusIn (Some root) (js_bor Focus_First Focus_NoScroll) no_options d
    = (FocusResult_Error, d)
}.

(** ** A concrete page

    Modelled from the spec: a browser page and a focus walker that implement
    the two interfaces, so that the handlers can be run.  A page is the list
    of its nodes in document order, each with its parent. *)
Module Page.

Record Node := {
  id : Element;
  parent : option Element;
  html : bool;
  focusable : bool;
  guard : bool
}.

Record Page := {
  nodes : list Node;
  active : option Element
}.

Definition find_node (p : Page) (x : Element) : option Node :=
  find (fun n => Element_eqb (id n) x) (nodes p).

Definition node_has (f : Node -> bool) (p : Page) (x : Element) : bool :=
  match find_node p x with
  | Some n => f n
  | None => false
  end.

(** [a] is [x] or one of the ancestors of [x]. *)
Fixpoint encloses (fuel : nat) (p : Page) (a x : Element) : bool :=
  Element_eqb a x ||
  match fuel with
  | O => false
  | S fuel' =>
      match find_node p x with
      | Some n =>
          match parent n with
          | Some q => encloses fuel' p a q
          | None => false
          end
      | None => false
      end
  end.

Definition page_contains (p : Page) (a x : Element) : bool :=
  encloses (List.length (nodes p)) p a x.

Definition set_active (x : Element) (p : Page) : Page :=
  {| nodes := nodes p; active := Some x |}.

(** [el?.focus()]: the browser moves focus only to a focusable node. *)
Definition page_focusElement (el : option Element) (p : Page) : Page :=
  match el with
  | Some x => if node_has focusable p x then set_active x p else p
  | None => p
  end.

Definition F_First : Z := 1.
Definition F_Previous : Z := 2.
Definition F_Next : Z := 4.
Definition F_Last : Z := 8.
Definition F_WrapAround : Z := 16.
Definition F_NoScroll : Z := 32.

Definition has_flag (focus flag : Z) : bool :=
  negb (Z.land focus flag =? 0).

Definition skipped (skip : list (option Element)) (x : Element) : bool :=
  existsb (strict_eq (Some x)) skip.

(** The focusable proper descendants of [root], in document order, without
    the skipped ones. *)
Definition candidates (p : Page) (root : Element)
  (skip : list (option Element)) : list Element :=
  map id
    (filter (fun n => focusable n
                      && page_contains p root (id n)
                      && negb (Element_eqb root (id n))
                      && negb (skipped skip (id n)))
            (nodes p)).

Fixpoint index_of (x : Element) (l : list Element) : option nat :=
  match l with
  | [] => None
  | y :: l' => if Element_eqb x y then Some O
               else option_map S (index_of x l')
  end.

Definition choose (p : Page) (focus : Z) (rel : option Element)
  (l : list Element) : option Element :=
  let from := match (match rel with
                     | Some r => index_of r l
                     | None => None
                     end) with
              | Some i => i
              | None => O
              end in
  let wrap := has_flag focus F_WrapAround in
  if has_flag focus F_First then nth_error l 0
  else if has_flag focus F_Last then nth_error l (List.length l - 1)
  else if has_flag focus F_Next then
    if Nat.ltb (S from) (List.length l) then nth_error l (S from)
    else if wrap then nth_error l 0 else None
  else if has_flag focus F_Previous then
    match from with
    | S i => nth_error l i
    | O => if wrap then nth_error l (List.length l - 1) else None
    end
  else None.

Definition page_focusIn (root : option Element) (focus : Z)
  (options : FocusOptions) (p : Page) : FocusResult * Page :=
  match root with
  | None => (FocusResult_Error, p)
  | Some r =>
      let rel := match relativeTo options with
                 | Some x => Some x
                 | None => active p
                 end in
      match choose p focus rel (candidates p r (skipElements options)) with
      | Some x => (FocusResult_Success, set_active x p)
      | None => (FocusResult_Error, p)
      end
  end.

#[global] Instance page_dom : Dom Page := {|
  activeElement := active;
  node_contains := page_contains;
  instanceofHTMLElement := node_has html;
  headlessuiFocusGuard := node_has guard
|}.

#[global] Instance page_focus : FocusManagement Page := {|
  Focus_First := F_First;
  Focus_Previous := F_Previous;
  Focus_Next := F_Next;
  Focus_Last := F_Last;
  Focus_WrapAround := F_WrapAround;
  Focus_NoScroll := F_NoScroll;
  focusElement := page_focusElement;
  focusIn := page_focusIn
|}.

(** *** An example page

    [body(0)] holds a button [1], the trap root [2] and a side panel [6];
    the trap root holds the inputs [3] and [4] and an [svg] link [5]; the
    side panel holds a button [7]; [8] is an empty dialog and [9] a focus
    guard. *)
Definition node (i : Element) (par : option Element) (h f g : bool) : Node :=
  {| id := i; parent := par; html := h; focusable := f; guard := g |}.

Definition example_nodes : list Node :=
  [ node 0%nat None true false false;
    node 1%nat (Some 0%nat) true true false;
    node 9%nat (Some 0%nat) true true true;
    node 2%nat (Some 0%nat) true false false;
    node 3%nat (Some 2%nat) true true false;
    node 4%nat (Some 2%nat) true true false;
    node 5%nat (Some 2%nat) false true false;
    node 6%nat (Some 0%nat) true false false;
    node 7%nat (Some 6%nat) true true false;
    node 8%nat (Some 0%nat) true false false ].

Definition example_page (focused : option Element) : Page :=
  {| nodes := example_nodes; active := focused |}.

Definition example_props (target : option Element) (flags : Z) : Props :=
  {| initialFocus := target;
     features := flags;
     containers := [ExternalRef 0];
     externalRefs := fun n => match n with
                              | O => Some 6%nat
                              | _ => None
                              end |}.

(** A mounted trap around [root] with nothing recorded yet. *)
Definition example_state (root : option Element) (focused : option Element)
  : State Page :=
  {| container := root;
     restoreElement := None;
     previousActiveElement := None;
     mounted := true;
     recentlyUsedTabKey := false;
     direction := Forwards;
     document := example_page focused;
     microTasks := [];
     animationFrames := O;
     trace := [] |}.

End Page.

(** * Properties *)

(** ** The feature bitmask *)

Lemma ToInt32_mod (z : Z) : ToInt32 z mod 2 ^ 32 = z mod 2 ^ 32.
Proof.
  unfold ToInt32. rewrite Zminus_mod_idemp_l. f_equal. lia.
Qed.

Lemma ToInt32_testbit (z k : Z) :
  0 <= k < 32 -> Z.testbit (ToInt32 z) k = Z.testbit z k.
Proof.
  intros Hk.
  rewrite <- (Z.mod_pow2_bits_low (ToInt32 z) 32 k) by lia.
  rewrite ToInt32_mod. apply Z.mod_pow2_bits_low. lia.
Qed.

Lemma ToInt32_pow2 (k : Z) : 0 <= k < 31 -> ToInt32 (2 ^ k) = 2 ^ k.
Proof.
  intros Hk. unfold ToInt32.
  assert (0 < 2 ^ k < 2 ^ 31).
  { split; [apply Z.pow_pos_nonneg; lia | apply Z.pow_lt_mono_r; lia]. }
  change (2 ^ 32) with (2 * 2 ^ 31) in *.
  rewrite Z.mod_small; lia.
Qed.

Lemma land_pow2 (a k : Z) :
  0 <= k -> Z.land a (2 ^ k) = if Z.testbit a k then 2 ^ k else 0.
Proof.
  intros Hk. apply Z.bits_inj'. intros n Hn.
  rewrite Z.land_spec, Z.pow2_bits_eqb by lia.
  destruct (Z.eqb_spec k n) as [->|Hne].
  - destruct (Z.testbit a n) eqn:E; cbn.
    + rewrite Z.pow2_bits_true; [reflexivity | lia].
    + rewrite Z.bits_0. reflexivity.
  - rewrite andb_false_r.
    destruct (Z.testbit a k).
    + rewrite Z.pow2_bits_false; [reflexivity | lia].
    + rewrite Z.bits_0. reflexivity.
Qed.

(** A feature is enabled exactly when its bit is set in the mask. *)
Lemma feature_enabled_testbit (f k : Z) :
  0 <= k < 31 -> feature_enabled f (2 ^ k) = Z.testbit f k.
Proof.
  intros Hk. unfold feature_enabled, js_band, Boolean.
  rewrite ToInt32_pow2, land_pow2 by lia.
  rewrite ToInt32_testbit by lia.
  destruct (Z.testbit f k); [|reflexivity].
  assert (0 < 2 ^ k) by (apply Z.pow_pos_nonneg; lia).
  destruct (Z.eqb_spec (2 ^ k) 0); [lia | reflexivity].
Qed.


Lemma feature_flags_are_bits :
  feature_flags = [2 ^ 1; 2 ^ 2; 2 ^ 3; 2 ^ 4].
Proof. reflexivity. Qed.




(** ** Sets of container references *)

Lemma ElementRef_eqb_eq (a b : ElementRef) :
  ElementRef_eqb a b = true <-> a = b.
Proof.
  destruct a as [|n], b as [|m]; cbn; split; intros E;
    try reflexivity; try discriminate.
  - apply Nat.eqb_eq in E. now subst.
  - injection E as ->. apply Nat.eqb_refl.
Qed.

Lemma In_Set_add (r a : ElementRef) (s : list ElementRef) :
  In r (Set_add a s) <-> r = a \/ In r s.
Proof.
  unfold Set_add. destruct (existsb (ElementRef_eqb a) s) eqn:E.
  - split; [now right|]. intros [->|Hin]; [|assumption].
    apply existsb_exists in E as (b & Hb & Heq).
    apply ElementRef_eqb_eq in Heq. now subst.
  - rewrite in_app_iff. cbn. intuition congruence.
Qed.

Lemma In_fold_Set_add (r : ElementRef) (items acc : list ElementRef) :
  In r (fold_left (fun s x => Set_add x s) items acc)
  <-> In r acc \/ In r items.
Proof.
  revert acc. induction items as [|a items IH]; intros acc; cbn.
  - tauto.
  - rewrite IH, In_Set_add. intuition congruence.
Qed.

Lemma In_allContainers (r : ElementRef) (props : Props) :
  In r (allContainers props) <-> r = OwnContainer \/ In r (containers props).
Proof.
  unfold allContainers, new_Set.
  rewrite In_Set_add, In_fold_Set_add. cbn. tauto.
Qed.

Lemma app_cons_neq {A : Type} (l m : list A) (a : A) : l ++ a :: m <> l.
Proof.
  intros E. rewrite <- (app_nil_r l) in E at 2.
  apply app_inv_head in E. discriminate E.
Qed.

Lemma option_eq_dec_Element (a b : option Element) : {a = b} + {a <> b}.
Proof. repeat decide equality. Qed.

Section FocusTrapProperties.

Context {Document : Type} `{Dom Document} `{FocusManagement Document}.

Implicit Types (st : State Document) (props : Props).

(** [contains] asks every member of the set, null refs apart. *)
Lemma contains_spec props st cs x :
  contains props st cs x = true
  <-> exists r node, In r cs /\ value props st r = Some node
                     /\ node_contains (document st) node x = true.
Proof.
  unfold contains. rewrite existsb_exists. split.
  - intros (r & Hin & Hr).
    destruct (value props st r) as [node|] eqn:E; [|discriminate].
    now exists r, node.
  - intros (r & node & Hin & Hv & Hc). exists r. now rewrite Hv.
Qed.

(** The set the handlers build is the effective container set. *)
Lemma contains_allContainers props st x :
  contains props st (allContainers props) x = true
  <-> inside_container_set props st x.
Proof.
  rewrite contains_spec. unfold inside_container_set.
  split; intros (r & node & Hin & Hrest); exists r, node;
    (split; [apply In_allContainers; exact Hin | exact Hrest]).
Qed.

Lemma contains_allContainers_false props st x :
  contains props st (allContainers props) x = false
  <-> ~ inside_container_set props st x.
Proof.
  rewrite <- contains_allContainers.
  destruct (contains props st (allContainers props) x);
    intuition congruence.
Qed.

(** ** The Focus-Lock Manager *)

(** C1, amended: with FocusLock enabled and a Previous Active Element
    recorded, a focus event whose target is an [HTMLElement] is settled by
    containment.  Outside the effective container set the listener cancels
    the default effect and the propagation of the event and focuses the
    recorded element; inside it records the target as Previous Active
    Element and focuses the target.  A target that is not an [HTMLElement],
    an [svg] element for one, is not looked up in the container set: the
    listener focuses the recorded element, cancels nothing and leaves the
    record as it is. *)
Theorem focus_lock_redirects_or_accepts props event st previous toElement :
  feature_enabled (features props) Features.FocusLock = true ->
  previousActiveElement st = Some previous ->
  target event = Some toElement ->
  let st' := FocusTrap_onFocus props event st in
  (instanceofHTMLElement (document st) toElement = true ->
   (~ inside_container_set props st toElement ->
    trace st' = trace st ++ [PreventDefault; StopPropagation;
                             FocusElementCall (Some previous)]
    /\ document st' = focusElement (Some previous) (document st)
    /\ previousActiveElement st' = Some previous)
   /\ (inside_container_set props st toElement ->
       previousActiveElement st' = Some toElement
       /\ trace st' = trace st ++ [FocusElementCall (Some toElement)]
       /\ document st' = focusElement (Some toElement) (document st)))
  /\ (instanceofHTMLElement (document st) toElement = false ->
      trace st' = trace st ++ [FocusElementCall (Some previous)]
      /\ document st' = focusElement (Some previous) (document st)
      /\ previousActiveElement st' = Some previous).
Proof.
  intros Hen Hprev Htarget st'. subst st'.
  unfold FocusTrap_onFocus, useFocusLock_listener.
  rewrite Hen, Hprev, Htarget. cbn [negb].
  split; intros Hhtml; rewrite Hhtml.
  - split; intros Hin.
    + apply contains_allContainers_false in Hin. rewrite Hin. cbn.
      rewrite <- !app_assoc. auto.
    + apply contains_allContainers in Hin. rewrite Hin. cbn. auto.
  - cbn. rewrite Hprev. auto.
Qed.

(** The listener writes Previous Active Element in its accept branch
    only. *)
Lemma focus_lock_writes_only_on_accept enabled props event st :
  let st' := useFocusLock_listener enabled props event st in
  previousActiveElement st' <> previousActiveElement st ->
  exists toElement,
    enabled = true
    /\ previousActiveElement st <> None
    /\ target event = Some toElement
    /\ instanceofHTMLElement (document st) toElement = true
    /\ inside_container_set props st toElement
    /\ previousActiveElement st' = Some toElement.
Proof.
  cbn zeta. unfold useFocusLock_listener.
  destruct enabled; cbn [negb]; [|congruence].
  destruct (previousActiveElement st) as [previous|] eqn:Hprev;
    [|congruence].
  destruct (target event) as [toElement|] eqn:Ht;
    [|cbn; congruence].
  destruct (instanceofHTMLElement (document st) toElement) eqn:Hhtml;
    [|cbn; congruence].
  destruct (contains props st (allContainers props) toElement) eqn:Hc;
    cbn; [|congruence].
  intros _. exists toElement.
  apply contains_allContainers in Hc. repeat split; auto. congruence.
Qed.

(** C10: a focus event whose target lies outside the effective container
    set leaves Previous Active Element as it was; whenever the listener
    changes the reference, it took the accept branch: the lock is enabled,
    a previous element was recorded, and the target is an element inside
    the container set, which becomes the new value. *)
Theorem focus_lock_frame props event st :
  let st' := FocusTrap_onFocus props event st in
  (forall toElement,
      target event = Some toElement ->
      ~ inside_container_set props st toElement ->
      previousActiveElement st' = previousActiveElement st)
  /\ (previousActiveElement st' <> previousActiveElement st ->
      exists toElement,
        target event = Some toElement
        /\ instanceofHTMLElement (document st) toElement = true
        /\ inside_container_set props st toElement
        /\ previousActiveElement st' = Some toElement).
Proof.
  cbn zeta. split.
  - intros toElement Ht Hout.
    destruct (option_eq_dec_Element
                (previousActiveElement (FocusTrap_onFocus props event st))
                (previousActiveElement st)) as [E|E]; [exact E|].
    apply focus_lock_writes_only_on_accept in E
      as (t & _ & _ & Ht' & _ & Hin & _).
    rewrite Ht in Ht'. injection Ht' as ->. contradiction.
  - intros E. apply focus_lock_writes_only_on_accept in E
      as (t & _ & _ & Ht & Hhtml & Hin & Hnew).
    exists t. auto.
Qed.

(** ** The Initial-Focus Manager *)

Lemma strict_eq_true (a b : option Element) :
  strict_eq a b = true <-> a = b.
Proof.
  destruct a as [x|], b as [y|]; cbn; unfold Element_eqb;
    rewrite ?Nat.eqb_eq; intuition congruence.
Qed.

(** A decision of a trap that is not mounted does nothing at all. *)
Lemma initial_focus_needs_mounted props containerElement st :
  mounted st = false ->
  useInitialFocus_microTask props containerElement st = st.
Proof.
  intros Hm. unfold useInitialFocus_microTask. now rewrite Hm.
Qed.

Lemma Watched_eqb_eq (a b : Watched) : Watched_eqb a b = true <-> a = b.
Proof.
  destruct a as [[c1 i1] e1], b as [[c2 i2] e2]. unfold Watched_eqb.
  rewrite !andb_true_iff, !strict_eq_true, Bool.eqb_true_iff.
  intuition congruence.
Qed.

(** A decision is queued exactly when a watched value changed, the
    InitialFocus flag is on and the container is rendered; it captures the
    container element of that moment. *)
Lemma initial_focus_scheduling enabled newValues prevValues st :
  useInitialFocus_watch enabled newValues prevValues st
  = match container st with
    | Some containerElement =>
        if enabled && negb (match prevValues with
                            | Some p => Watched_eqb p newValues
                            | None => false
                            end)
        then microTask (InitialFocusTask containerElement) st
        else st
    | None => st
    end.
Proof.
  unfold useInitialFocus_watch.
  destruct prevValues as [p|]; [destruct (Watched_eqb p newValues)|];
    destruct enabled; destruct (container st); reflexivity.
Qed.

(** Mounting a trap with the InitialFocus flag on and its container
    rendered queues the decision. *)
Lemma onMounted_queues_decision props st containerElement :
  feature_enabled (features props) Features.InitialFocus = true ->
  container st = Some containerElement ->
  microTasks (onMounted props st)
  = microTasks st ++ [InitialFocusTask containerElement]
  /\ mounted (onMounted props st) = true.
Proof.
  intros Hen Hc. unfold onMounted. rewrite Hen.
  generalize (feature_enabled (features props) Features.RestoreFocus).
  intros r. rewrite initial_focus_scheduling.
  assert (Hc' : forall v prev,
             container (set_mounted true
                          (useRestoreFocus_watch v prev st))
             = Some containerElement).
  { intros v prev. unfold useRestoreFocus_watch, captureFocus,
      restoreFocusIfNeeded.
    destruct prev as [pv|]; cbn;
      [destruct (Bool.eqb v pv)|]; destruct v;
      destruct (restoreElement st); cbn; exact Hc. }
  rewrite Hc'. cbn.
  unfold useRestoreFocus_watch, captureFocus, restoreFocusIfNeeded. cbn.
  destruct r; destruct (restoreElement st); cbn; auto.
Qed.

(** What the attempt of lines 280-289 leaves behind: at least one call to
    the focus helpers, and the active element recorded. *)
Lemma tryFocus_records_active target containerElement st :
  let st' := useInitialFocus_tryFocus target containerElement st in
  previousActiveElement st' = activeElement (document st')
  /\ exists e es, trace st' = trace st ++ e :: es.
Proof.
  cbn zeta. unfold useInitialFocus_tryFocus.
  destruct target as [el|].
  - cbn. split; [reflexivity|]. now exists (FocusElementCall (Some el)), [].
  - unfold call_focusIn.
    destruct (focusIn (Some containerElement)
                (js_bor Focus_First Focus_NoScroll) no_options (document st))
      as [[|] d]; cbn; (split; [reflexivity|]).
    + now eexists _, [].
    + rewrite <- app_assoc. cbn. now eexists _, [_].
Qed.

(** C8: when the decision runs and the explicit initial-focus target is
    already the active element, or there is no explicit target and the
    container contains the active element, no focus helper is called, the
    document is left alone and the active element is recorded as Previous
    Active Element. *)
Theorem initial_focus_already_in_place props containerElement st a :
  mounted st = true ->
  activeElement (document st) = Some a ->
  (initialFocus props = Some a
   \/ (initialFocus props = None
       /\ node_contains (document st) containerElement a = true)) ->
  let st' := useInitialFocus_microTask props containerElement st in
  st' = set_previousActiveElement (Some a) st
  /\ trace st' = trace st
  /\ document st' = document st
  /\ previousActiveElement st' = Some a.
Proof.
  intros Hm Ha Hcase st'.
  assert (E : st' = set_previousActiveElement (Some a) st).
  { subst st'. unfold useInitialFocus_microTask. rewrite Hm, Ha. cbn [negb].
    destruct Hcase as [Hi | [Hi Hc]]; rewrite Hi.
    - now rewrite (proj2 (strict_eq_true (Some a) (Some a)) eq_refl).
    - cbn [contains_active]. now rewrite Hc. }
  rewrite E. cbn. auto.
Qed.

Lemma onUnmounted_mounted st : mounted (onUnmounted st) = false.
Proof. reflexivity. Qed.

Lemma onUnmounted_microTasks st :
  microTasks (onUnmounted st) = microTasks st.
Proof.
  unfold onUnmounted, useRestoreFocus_onUnmounted, restoreFocusIfNeeded.
  now destruct (restoreElement st).
Qed.

(** C9: if the component is unmounted while the decision is pending, the
    microtask, once it runs, only leaves the queue: no focus helper is
    called, the document and Previous Active Element are as the teardown
    left them, whatever the props are by then. *)
Theorem unmounted_decision_is_dropped props containerElement rest st :
  microTasks st = InitialFocusTask containerElement :: rest ->
  let st1 := onUnmounted st in
  let st2 := runMicroTask props st1 in
  st2 = set_microTasks rest st1
  /\ trace st2 = trace st1
  /\ document st2 = document st1
  /\ previousActiveElement st2 = previousActiveElement st1.
Proof.
  intros Hq st1 st2.
  assert (E : st2 = set_microTasks rest st1).
  { subst st2. unfold runMicroTask. subst st1.
    rewrite onUnmounted_microTasks, Hq. cbn [runTask].
    apply initial_focus_needs_mounted. reflexivity. }
  rewrite E. cbn. auto.
Qed.

(** C2, amended: an operation that makes Previous Active Element non-null
    assigns either the target of a focus event that the listener found
    inside the effective container set, or the active element of the
    document as the initial-focus decision finds it.  The decision has
    checked that element (it is the initial-focus target, or the container
    contains it) only where it returns without calling a focus helper;
    after an attempt to move focus it records the active element
    unchecked. *)
Theorem previous_assignment_provenance props st x :
  (forall event,
      let st' := FocusTrap_onFocus props event st in
      previousActiveElement st' = Some x ->
      previousActiveElement st' <> previousActiveElement st ->
      target event = Some x /\ inside_container_set props st x)
  /\ (forall containerElement,
        let st' := useInitialFocus_microTask props containerElement st in
        previousActiveElement st' = Some x ->
        previousActiveElement st' <> previousActiveElement st ->
        activeElement (document st') = Some x
        /\ (trace st' = trace st ->
            document st' = document st
            /\ (initialFocus props = Some x
                \/ (initialFocus props = None
                    /\ node_contains (document st) containerElement x
                       = true)))).
Proof.
  split.
  - intros event st' Hx Hchanged.
    apply focus_lock_writes_only_on_accept in Hchanged
      as (t & _ & _ & Ht & _ & Hin & Hnew).
    fold (FocusTrap_onFocus props event st) in Hnew. fold st' in Hnew.
    rewrite Hx in Hnew. injection Hnew as ->. auto.
  - intros containerElement st' Hx Hchanged. subst st'.
    unfold useInitialFocus_microTask in *.
    destruct (mounted st); cbn [negb] in *; [|congruence].
    assert (Late :
      forall target,
        previousActiveElement
          (useInitialFocus_tryFocus target containerElement st) = Some x ->
        activeElement
          (document (useInitialFocus_tryFocus target containerElement st))
        = Some x
        /\ (trace (useInitialFocus_tryFocus target containerElement st)
            = trace st ->
            document (useInitialFocus_tryFocus target containerElement st)
            = document st
            /\ (initialFocus props = Some x
                \/ (initialFocus props = None
                    /\ node_contains (document st) containerElement x
                       = true)))).
    { intros target' Hp.
      destruct (tryFocus_records_active target' containerElement st)
        as [Hrec (e & es & Htr)].
      split; [congruence|].
      intros Hsame. rewrite Htr in Hsame.
      exfalso. exact (app_cons_neq _ _ _ Hsame). }
    destruct (initialFocus props) as [el|] eqn:Hi.
    + destruct (strict_eq (Some el) (activeElement (document st))) eqn:Heq;
        [|now apply Late].
      apply strict_eq_true in Heq. cbn in Hx |- *.
      split; [exact Hx|]. intros _. split; [reflexivity|].
      left. congruence.
    + destruct (contains_active (document st) containerElement
                  (activeElement (document st))) eqn:Hc;
        [|now apply Late].
      cbn in Hx |- *. split; [exact Hx|]. intros _.
      split; [reflexivity|]. right. split; [reflexivity|].
      rewrite Hx in Hc. exact Hc.
Qed.

(** ** The Restore-Focus Manager *)


(** ** The focus-out handler *)

(** C6, amended: the handler does nothing if [relatedTarget] is absent,
    carries the focus-guard marker or lies within the effective container
    set.  Otherwise, if the Tab key was used recently, it asks the focus
    walker for the next (Forwards) or previous (Backwards) element relative
    to the target of the event, wrapping around, inside the trap root; if
    not, it focuses the target of the event when that target is an
    [HTMLElement], and does nothing when it is not. *)
Theorem blur_handler props e st :
  let st' := handleBlur props e st in
  ((relatedTarget e = None
    \/ exists r, relatedTarget e = Some r
                 /\ (headlessuiFocusGuard (document st) r = true
                     \/ inside_container_set props st r)) ->
   st' = st)
  /\ (forall r,
        relatedTarget e = Some r ->
        headlessuiFocusGuard (document st) r = false ->
        ~ inside_container_set props st r ->
        let focus :=
          js_bor (match direction st with
                  | Forwards => Focus_Next
                  | Backwards => Focus_Previous
                  end) Focus_WrapAround in
        let options := {| relativeTo := target e; skipElements := [] |} in
        (recentlyUsedTabKey st = true ->
         trace st' = trace st ++ [FocusInCall (container st) focus options]
         /\ document st'
            = snd (focusIn (container st) focus options (document st)))
        /\ (recentlyUsedTabKey st = false ->
            forall t,
              target e = Some t ->
              instanceofHTMLElement (document st) t = true ->
              trace st' = trace st ++ [FocusElementCall (Some t)]
              /\ document st' = focusElement (Some t) (document st))
        /\ (recentlyUsedTabKey st = false ->
            (target e = None
             \/ exists t, target e = Some t
                          /\ instanceofHTMLElement (document st) t = false) ->
            st' = st)).
Proof.
  cbn zeta. unfold handleBlur. split.
  - intros [-> | (r & -> & [Hg | Hin])]; [reflexivity| |].
    + now rewrite Hg.
    + apply contains_allContainers in Hin. rewrite Hin.
      now destruct (headlessuiFocusGuard (document st) r).
  - intros r -> Hg Hout. rewrite Hg.
    apply contains_allContainers_false in Hout. rewrite Hout. cbn [negb].
    split; [|split].
    + intros ->. unfold call_focusIn.
      destruct (focusIn _ _ _ (document st)) as [result d]. cbn. auto.
    + intros -> t -> ->. cbn. auto.
    + intros -> [-> | (t & -> & ->)]; reflexivity.
Qed.

(** ** The boundary guards *)

(** C7: with TabLock the render function puts a focus guard before and
    after the trap root, without TabLock it renders none; and a focus
    event on a guard makes the handler ask the focus walker for the first
    (direction Forwards) or the last (Backwards) focusable element of the
    trap root, with the [relatedTarget] of the event to be skipped - at
    once, or, under test instrumentation, in the microtask it queues. *)
Theorem tab_lock_guards props e st el :
  container st = Some el ->
  let focus := match direction st with
               | Forwards => Focus_First
               | Backwards => Focus_Last
               end in
  let options :=
    {| relativeTo := None; skipElements := [relatedTarget e] |} in
  let redirected st' :=
    trace st' = trace st ++ [FocusInCall (Some el) focus options]
    /\ document st' = snd (focusIn (Some el) focus options (document st)) in
  (feature_enabled (features props) Features.TabLock = true ->
   render props = [FocusGuard; TrapRoot; FocusGuard])
  /\ (feature_enabled (features props) Features.TabLock = false ->
      render props = [Nothing; TrapRoot; Nothing]
      /\ ~ In FocusGuard (render props))
  /\ redirected (handleFocus false e st)
  /\ (microTasks st = [] ->
      microTasks (handleFocus true e st) = [SentinelTask el e]
      /\ redirected (runMicroTask props (handleFocus true e st))).
Proof.
  intros Hc focus options redirected.
  assert (R : redirected (handleFocus_redirect el e st)).
  { subst redirected focus options. cbn beta.
    unfold handleFocus_redirect, call_focusIn.
    destruct (direction st);
      destruct (focusIn _ _ _ (document st)) as [result d]; cbn; auto. }
  split; [|split; [|split]].
  - intros Hen. unfold render. now rewrite Hen.
  - intros Hen. unfold render. rewrite Hen. split; [reflexivity|].
    cbn. intuition discriminate.
  - unfold handleFocus. now rewrite Hc.
  - intros Hq. unfold handleFocus. rewrite Hc. cbn.
    rewrite Hq. split; [reflexivity|].
    unfold runMicroTask. cbn. rewrite Hq. cbn.
    subst redirected focus options. cbn beta in *.
    unfold handleFocus_redirect, call_focusIn in *. cbn.
    destruct (direction st);
      destruct (focusIn _ _ _ (document st)) as [result d]; cbn in *; auto.
Qed.

End FocusTrapProperties.

Section WithFocusWalker.

Context {Document : Type} `{FocusWalkerContract Document}.

Implicit Types (st : State Document) (props : Props).

(** C4: when the decision runs with no explicit initial-focus target and
    the active element is not inside the container, the focus walker is
    asked for the first focusable element of the container, without
    scrolling.  If the container has a focusable descendant, the first one
    gets the focus and is recorded; if it has none, the warning is logged,
    the document is left as it was, and the active element it had is
    recorded. *)
Theorem initial_focus_first_focusable props containerElement st :
  mounted st = true ->
  initialFocus props = None ->
  contains_active (document st) containerElement
                  (activeElement (document st)) = false ->
  let st' := useInitialFocus_microTask props containerElement st in
  let call := FocusInCall (Some containerElement)
                          (js_bor Focus_First Focus_NoScroll) no_options in
  (forall x rest,
      focusable_in (document st) containerElement = x :: rest ->
      trace st' = trace st ++ [call]
      /\ activeElement (document st') = Some x
      /\ previousActiveElement st' = Some x)
  /\ (focusable_in (document st) containerElement = [] ->
      trace st' = trace st ++ [call; ConsoleWarn no_focusable_warning]
      /\ document st' = document st
      /\ previousActiveElement st' = activeElement (document st)).
Proof.
  intros Hm Hi Hc st' call. subst st' call.
  unfold useInitialFocus_microTask. rewrite Hm, Hi, Hc. cbn [negb].
  unfold useInitialFocus_tryFocus, call_focusIn. split.
  - intros x rest Hf.
    destruct (focusIn_First_found _ _ _ _ Hf) as (d' & -> & Hactive).
    cbn. auto.
  - intros Hf. rewrite (focusIn_First_none _ _ Hf). cbn.
    rewrite <- app_assoc. auto.
Qed.

End WithFocusWalker.

(** ** The concrete page implements the focus walker of the specification *)

Lemma page_First_found (d : Page.Page) root x rest :
  Page.candidates d root [] = x :: rest ->
  exists d',
    focusIn (Some root) (js_bor Focus_First Focus_NoScroll) no_options d
    = (FocusResult_Success, d')
    /\ activeElement d' = Some x.
Proof.
  intros Hc. exists (Page.set_active x d).
  cbn. unfold Page.page_focusIn. cbn. rewrite Hc. cbn. split; reflexivity.
Qed.

Lemma page_First_none (d : Page.Page) root :
  Page.candidates d root [] = [] ->
  focusIn (Some root) (js_bor Focus_First Focus_NoScroll) no_options d
  = (FocusResult_Error, d).
Proof.
  intros Hc. cbn. unfold Page.page_focusIn. cbn. rewrite Hc. reflexivity.
Qed.

#[global] Instance page_walker : FocusWalkerContract Page.Page.
Proof.
  refine {| focusable_in := fun d root => Page.candidates d root [] |}.
  - exact page_First_found.
  - exact page_First_none.
Defined.

(** ** The statements at work on the example page *)

Import Page.

(** Focus lands on the button [1] outside a trap around [2] that had
    recorded the input [3]: the event is cancelled and [3] is focused.
    Focus lands on the [svg] link [5] inside the trap: [3] is focused and
    stays recorded. *)
Lemma focus_lock_redirects_or_accepts_witness :
  let props := example_props None Features.All in
  let st := set_previousActiveElement
              (Some 3%nat) (example_state (Some 2%nat) (Some 1%nat)) in
  let event := {| target := Some 1%nat; relatedTarget := Some 3%nat |} in
  let svg := {| target := Some 5%nat; relatedTarget := Some 3%nat |} in
  feature_enabled (features props) Features.FocusLock = true
  /\ previousActiveElement st = Some 3%nat
  /\ target event = Some 1%nat
  /\ instanceofHTMLElement (document st) 1%nat = true
  /\ instanceofHTMLElement (document st) 5%nat = false
  /\ trace (FocusTrap_onFocus props event st)
     = [PreventDefault; StopPropagation; FocusElementCall (Some 3%nat)]
  /\ activeElement (document (FocusTrap_onFocus props event st))
     = Some 3%nat
  /\ previousActiveElement (FocusTrap_onFocus props svg st) = Some 3%nat.
Proof.
  intros props st event svg.
  do 5 (split; [reflexivity|]).
  destruct (focus_lock_redirects_or_accepts props event st 3%nat 1%nat
              ltac:(reflexivity) ltac:(reflexivity) ltac:(reflexivity))
    as [Hhtml _].
  destruct (focus_lock_redirects_or_accepts props svg st 3%nat 5%nat
              ltac:(reflexivity) ltac:(reflexivity) ltac:(reflexivity))
    as [_ Hother].
  destruct (Hhtml ltac:(reflexivity)) as [Hout _].
  destruct Hout as (Ht & Hd & _).
  { apply contains_allContainers_false. reflexivity. }
  destruct (Hother ltac:(reflexivity)) as (_ & _ & Hp).
  split; [exact Ht|]. split; [rewrite Hd; reflexivity | exact Hp].
Defined.

(** The same event leaves the recorded element alone. *)
Lemma focus_lock_frame_witness :
  let props := example_props None Features.All in
  let st := set_previousActiveElement
              (Some 3%nat) (example_state (Some 2%nat) (Some 1%nat)) in
  let event := {| target := Some 1%nat; relatedTarget := Some 3%nat |} in
  previousActiveElement (FocusTrap_onFocus props event st) = Some 3%nat.
Proof.
  intros props st event.
  destruct (focus_lock_frame props event st) as [Hout _].
  apply (Hout 1%nat ltac:(reflexivity)).
  apply contains_allContainers_false. reflexivity.
Defined.

(** Focus moves to the button [7] of the side panel, an extra container:
    the listener records [7]. *)
Lemma previous_assignment_provenance_witness :
  let props := example_props None Features.All in
  let st := set_previousActiveElement
              (Some 3%nat) (example_state (Some 2%nat) (Some 7%nat)) in
  let event := {| target := Some 7%nat; relatedTarget := Some 3%nat |} in
  previousActiveElement (FocusTrap_onFocus props event st) = Some 7%nat
  /\ inside_container_set props st 7%nat.
Proof.
  intros props st event. split; [reflexivity|].
  destruct (previous_assignment_provenance props st 7%nat) as [Hlock _].
  apply (Hlock event); [reflexivity | discriminate].
Defined.

(** A trap around [2] while the button [1] has the focus: the input [3]
    gets it.  A trap around the empty dialog [8]: the warning is logged and
    the button keeps the focus. *)
Lemma initial_focus_first_focusable_witness :
  let props := example_props None Features.All in
  let st := example_state (Some 2%nat) (Some 1%nat) in
  mounted st = true
  /\ initialFocus props = None
  /\ contains_active (document st) 2%nat (activeElement (document st)) = false
  /\ contains_active (document st) 8%nat (activeElement (document st)) = false
  /\ previousActiveElement (useInitialFocus_microTask props 2%nat st)
     = Some 3%nat
  /\ trace (useInitialFocus_microTask props 8%nat st)
     = [FocusInCall (Some 8%nat) 33 no_options;
        ConsoleWarn no_focusable_warning]
  /\ activeElement (document (useInitialFocus_microTask props 8%nat st))
     = Some 1%nat.
Proof.
  intros props st.
  do 4 (split; [reflexivity|]).
  destruct (initial_focus_first_focusable props 2%nat st
              ltac:(reflexivity) ltac:(reflexivity) ltac:(reflexivity)) as [Hfound _].
  destruct (initial_focus_first_focusable props 8%nat st
              ltac:(reflexivity) ltac:(reflexivity) ltac:(reflexivity)) as [_ Hnone].
  destruct (Hfound 3%nat [4%nat; 5%nat] ltac:(reflexivity)) as (_ & _ & Hp).
  destruct (Hnone ltac:(reflexivity)) as (Ht & Hd & _).
  split; [exact Hp|]. split; [exact Ht|]. rewrite Hd. reflexivity.
Defined.


(** Focus leaves the input [4] for the button [1] by a click: [4] gets the
    focus back. *)
Lemma blur_handler_witness :
  let props := example_props None Features.All in
  let st := example_state (Some 2%nat) (Some 1%nat) in
  let e := {| target := Some 4%nat; relatedTarget := Some 1%nat |} in
  trace (handleBlur props e st) = [FocusElementCall (Some 4%nat)]
  /\ activeElement (document (handleBlur props e st)) = Some 4%nat.
Proof.
  intros props st e.
  destruct (blur_handler props e st) as [_ Hleave].
  destruct (Hleave 1%nat ltac:(reflexivity) ltac:(reflexivity)) as (_ & Hclick & _).
  { apply contains_allContainers_false. reflexivity. }
  destruct (Hclick ltac:(reflexivity) 4%nat ltac:(reflexivity) ltac:(reflexivity)) as [Ht Hd].
  split; [exact Ht | rewrite Hd; reflexivity].
Defined.

(** A guard of the trap around [2] is focused coming from the input [3]
    with Tab: the walker is asked for the first element, [3] skipped, and
    gives the input [4]. *)
Lemma tab_lock_guards_witness :
  let props := example_props None Features.All in
  let st := example_state (Some 2%nat) (Some 9%nat) in
  let e := {| target := Some 9%nat; relatedTarget := Some 3%nat |} in
  container st = Some 2%nat
  /\ render props = [FocusGuard; TrapRoot; FocusGuard]
  /\ trace (handleFocus false e st)
     = [FocusInCall (Some 2%nat) Focus_First
          {| relativeTo := None; skipElements := [Some 3%nat] |}]
  /\ activeElement (document (handleFocus false e st)) = Some 4%nat.
Proof.
  intros props st e. split; [reflexivity|].
  destruct (tab_lock_guards props e st 2%nat ltac:(reflexivity))
    as (Hon & _ & [Ht Hd] & _).
  split; [exact (Hon ltac:(reflexivity))|].
  split; [exact Ht | rewrite Hd; reflexivity].
Defined.

(** The explicit target [4] has the focus already. *)
Lemma initial_focus_already_in_place_witness :
  let props := example_props (Some 4%nat) Features.All in
  let st := example_state (Some 2%nat) (Some 4%nat) in
  mounted st = true
  /\ activeElement (document st) = Some 4%nat
  /\ initialFocus props = Some 4%nat
  /\ trace (useInitialFocus_microTask props 2%nat st) = []
  /\ previousActiveElement (useInitialFocus_microTask props 2%nat st)
     = Some 4%nat.
Proof.
  intros props st.
  do 3 (split; [reflexivity|]).
  destruct (initial_focus_already_in_place props 2%nat st 4%nat
              ltac:(reflexivity) ltac:(reflexivity) (or_introl eq_refl))
    as (_ & Ht & _ & Hp).
  split; [exact Ht | exact Hp].
Defined.

(** The trap around [2] is unmounted with its decision still queued. *)
Lemma unmounted_decision_is_dropped_witness :
  let props := example_props None Features.All in
  let st := microTask (InitialFocusTask 2%nat)
                      (example_state (Some 2%nat) (Some 1%nat)) in
  microTasks st = [InitialFocusTask 2%nat]
  /\ trace (runMicroTask props (onUnmounted st)) = []
  /\ previousActiveElement (runMicroTask props (onUnmounted st)) = None
  /\ activeElement (document (runMicroTask props (onUnmounted st)))
     = Some 1%nat.
Proof.
  intros props st. split; [reflexivity|].
  destruct (unmounted_decision_is_dropped props 2%nat [] st ltac:(reflexivity))
    as (_ & Ht & Hd & Hp).
  split; [exact Ht|]. split; [exact Hp | rewrite Hd; reflexivity].
Defined.

(** ** Where the code parts from the specification *)

(** C2, as the specification words it, fails: a trap around the empty
    dialog [8], no initial-focus target, the button [1] focused.  The walker
    finds nothing, the warning is logged, and line 289 records [1], which is
    neither the initial-focus target nor inside the dialog [8] or the side
    panel [6]. *)
Lemma previous_recorded_outside_the_trap :
  ~ @previous_always_verified Page _ _.
Proof.
  intros Hclaim.
  destruct (Hclaim (example_props None Features.All)
                   (example_state (Some 8%nat) (Some 1%nat)) 1%nat)
    as [_ Hdecision].
  destruct (Hdecision 8%nat ltac:(reflexivity) ltac:(reflexivity)) as [Hin | Htarget].
  - discriminate.
  - apply contains_allContainers in Hin. discriminate Hin.
  - discriminate Htarget.
Qed.

(** C1, as the specification words it, fails: focus lands on the [svg] link
    [5] inside the trap around [2] that had recorded the input [3].  The
    link is an element inside the container set, but not an [HTMLElement]:
    line 328 sends it to the branch of line 338, which focuses [3] and leaves
    [3] recorded instead of accepting [5]. *)
Lemma focus_lock_passes_over_svg_target :
  ~ @focus_lock_settles_any_element Page _ _.
Proof.
  intros Hclaim.
  destruct (Hclaim (example_props None Features.All)
                   {| target := Some 5%nat; relatedTarget := Some 3%nat |}
                   (set_previousActiveElement
                      (Some 3%nat) (example_state (Some 2%nat) (Some 5%nat)))
                   3%nat 5%nat
                   ltac:(reflexivity) ltac:(reflexivity) ltac:(reflexivity))
    as [_ Hinside].
  destruct Hinside as [Hrecorded _].
  - apply contains_allContainers. reflexivity.
  - discriminate Hrecorded.
Qed.

(** C6, as the specification words it, fails: focus leaves the [svg] link
    [5] of the trap around [2] for the button [1] without the Tab key.  The
    target is not an [HTMLElement], so the handler does nothing. *)
Lemma blur_ignores_svg_target : ~ @blur_refocuses_any_target Page _ _.
Proof.
  intros Hclaim.
  specialize (Hclaim (example_props None Features.All)
                     {| target := Some 5%nat; relatedTarget := Some 1%nat |}
                     (example_state (Some 2%nat) (Some 5%nat))
                     1%nat ltac:(reflexivity) ltac:(reflexivity)).
  assert (Hout : ~ inside_container_set
                     (example_props None Features.All)
                     (example_state (Some 2%nat) (Some 5%nat)) 1%nat).
  { apply contains_allContainers_false. reflexivity. }
  specialize (Hclaim Hout ltac:(reflexivity)). discriminate Hclaim.
Qed.

(** * Further properties of the component *)

(** ** Composing feature masks *)

(** A mask built with [|] enables exactly the features its two operands
    enable, and [None] adds nothing to a mask. *)
Theorem features_compose_by_or (a b flag : Z) :
  In flag feature_flags ->
  feature_enabled (js_bor a b) flag
  = feature_enabled a flag || feature_enabled b flag
  /\ feature_enabled (js_bor a Features.None) flag = feature_enabled a flag.
Proof.
  intros Hflag.
  assert (Hk : exists k, 1 <= k < 5 /\ flag = 2 ^ k).
  { rewrite feature_flags_are_bits in Hflag. cbn [In] in Hflag.
    destruct Hflag as [<-|[<-|[<-|[<-|[]]]]];
      [exists 1 | exists 2 | exists 3 | exists 4]; (split; [lia|reflexivity]). }
  destruct Hk as (k & Hk & ->).
  assert (Hor : forall c d, feature_enabled (js_bor c d) (2 ^ k)
                            = Z.testbit c k || Z.testbit d k).
  { intros c d. rewrite feature_enabled_testbit by lia.
    unfold js_bor. rewrite Z.lor_spec, !ToInt32_testbit by lia. reflexivity. }
  rewrite !Hor, !feature_enabled_testbit by lia. split; [reflexivity|].
  change Features.None with (2 ^ 0).
  rewrite Z.pow2_bits_eqb by lia.
  destruct (Z.eqb_spec 0 k); [lia|]. apply orb_false_r.
Qed.

Lemma features_compose_by_or_witness :
  In Features.TabLock feature_flags
  /\ feature_enabled (js_bor Features.InitialFocus Features.TabLock)
                     Features.TabLock = true
  /\ feature_enabled (js_bor Features.InitialFocus Features.None)
                     Features.TabLock = false.
Proof.
  assert (Hin : In Features.TabLock feature_flags) by (cbn; auto).
  split; [exact Hin|].
  destruct (features_compose_by_or Features.InitialFocus Features.TabLock
              Features.TabLock Hin) as [Hor _].
  destruct (features_compose_by_or Features.InitialFocus Features.None
              Features.TabLock Hin) as [_ Hnone].
  split; [rewrite Hor | rewrite Hnone]; reflexivity.
Defined.

Lemma existsb_pointwise {A : Type} (f g : A -> bool) (l : list A) :
  (forall a, In a l -> f a = g a) -> existsb f l = existsb g l.
Proof.
  induction l as [|a l IH]; intros Hfg; cbn; [reflexivity|].
  rewrite (Hfg a (or_introl eq_refl)), IH; [reflexivity|].
  intros a' Ha'. apply Hfg. now right.
Qed.

Section FurtherProperties.

Context {Document : Type} `{Dom Document} `{FocusManagement Document}.

Implicit Types (st : State Document) (props : Props).

(** ** [contains] and the set the handlers build *)

(** [contains] asks which refs are in the set and nothing else: two sets with
    the same members give the same answer, whatever their order. *)
Theorem contains_membership_only props st cs cs' x :
  (forall r, In r cs <-> In r cs') ->
  contains props st cs x = contains props st cs' x.
Proof.
  intros Hsame. apply Bool.eq_iff_eq_true. rewrite !contains_spec.
  split; intros (r & node & Hin & Hrest); exists r, node;
    (split; [apply Hsame; exact Hin | exact Hrest]).
Qed.

(** An element inside the trap's own container is inside the set the
    handlers build, whatever [props.containers] holds. *)
Theorem own_container_always_counts props st c x :
  container st = Some c ->
  node_contains (document st) c x = true ->
  contains props st (allContainers props) x = true.
Proof.
  intros Hc Hx. apply contains_allContainers.
  exists OwnContainer, c. cbn. auto.
Qed.

(** Refs whose value is null are passed over: while neither the trap's
    container nor any extra container is rendered, nothing is inside the
    set, and an enabled lock with a recorded element sends every
    [HTMLElement] target back to that element. *)
Theorem unrendered_trap_redirects_everything props event st previous t :
  container st = None ->
  (forall r, In r (containers props) -> value props st r = None) ->
  feature_enabled (features props) Features.FocusLock = true ->
  previousActiveElement st = Some previous ->
  target event = Some t ->
  instanceofHTMLElement (document st) t = true ->
  contains props st (allContainers props) t = false
  /\ trace (FocusTrap_onFocus props event st)
     = trace st ++ [PreventDefault; StopPropagation;
                    FocusElementCall (Some previous)].
Proof.
  intros Hc Hextra Hen Hprev Ht Hhtml.
  assert (Hout : contains props st (allContainers props) t = false).
  { apply contains_allContainers_false.
    intros (r & node & [-> | Hin] & Hv & _).
    - cbn in Hv. congruence.
    - rewrite (Hextra r Hin) in Hv. discriminate Hv. }
  split; [exact Hout|].
  unfold FocusTrap_onFocus, useFocusLock_listener.
  rewrite Hen, Hprev, Ht, Hhtml, Hout. cbn. now rewrite <- !app_assoc.
Qed.

(** ** The Focus-Lock listener *)

(** When the lock is enabled and an element is recorded, a focus event whose
    target is null or not an [HTMLElement] makes the listener focus the
    recorded element; the event is not cancelled and the record stays. *)
Theorem focus_lock_refocuses_on_non_element props event st previous :
  feature_enabled (features props) Features.FocusLock = true ->
  previousActiveElement st = Some previous ->
  (target event = None
   \/ exists t, target event = Some t
                /\ instanceofHTMLElement (document st) t = false) ->
  let st' := FocusTrap_onFocus props event st in
  trace st' = trace st ++ [FocusElementCall (Some previous)]
  /\ document st' = focusElement (Some previous) (document st)
  /\ previousActiveElement st' = Some previous.
Proof.
  intros Hen Hprev Ht. cbn zeta.
  unfold FocusTrap_onFocus, useFocusLock_listener. rewrite Hen, Hprev.
  destruct Ht as [-> | (t & -> & ->)]; cbn; auto.
Qed.

(** Whatever the event, an enabled lock with a recorded element ends by
    focusing the element that is recorded when it returns: the listener
    calls [focusElement] exactly once, on the new Previous Active Element,
    which is never null, after cancelling the event or not. *)
Theorem focus_lock_reasserts_previous props event st :
  feature_enabled (features props) Features.FocusLock = true ->
  previousActiveElement st <> None ->
  let st' := FocusTrap_onFocus props event st in
  previousActiveElement st' <> None
  /\ document st'
     = focusElement (previousActiveElement st') (document st)
  /\ exists cancelled,
      (cancelled = [] \/ cancelled = [PreventDefault; StopPropagation])
      /\ trace st'
         = trace st ++ cancelled
                    ++ [FocusElementCall (previousActiveElement st')].
Proof.
  intros Hen Hprev. cbn zeta.
  unfold FocusTrap_onFocus, useFocusLock_listener. rewrite Hen. cbn [negb].
  destruct (previousActiveElement st) as [previous|] eqn:Hp; [|congruence].
  destruct (target event) as [t|];
    [destruct (instanceofHTMLElement (document st) t);
     [destruct (contains props st (allContainers props) t)|]|];
    cbn; rewrite ?Hp;
    (split; [discriminate|]); (split; [reflexivity|]).
  - exists []. auto.
  - exists [PreventDefault; StopPropagation]. rewrite <- !app_assoc. auto.
  - exists []. auto.
  - exists []. auto.
Qed.

(** With [features] set to [None], a fresh trap mounts without capturing an
    element or queuing a decision, the window listener ignores every event
    and no guard is rendered. *)
Theorem features_None_is_idle props st :
  features props = Features.None ->
  restoreElement st = None ->
  onMounted props st = set_mounted true st
  /\ (forall event, FocusTrap_onFocus props event st = st)
  /\ render props = [Nothing; TrapRoot; Nothing].
Proof.
  intros Hf Hr. unfold onMounted, FocusTrap_onFocus, render. rewrite Hf.
  change (feature_enabled Features.None Features.RestoreFocus) with false.
  change (feature_enabled Features.None Features.InitialFocus) with false.
  change (feature_enabled Features.None Features.FocusLock) with false.
  change (feature_enabled Features.None Features.TabLock) with false.
  split; [|split; [intros event|]]; try reflexivity.
  unfold useRestoreFocus_watch, restoreFocusIfNeeded. cbn. rewrite Hr.
  unfold useInitialFocus_watch. reflexivity.
Qed.

(** No feature flag gates the focus-out handler: it reads the containers and
    nothing else of the props, so it redirects focus even under [None]. *)
Theorem blur_handler_is_not_gated props props' e st :
  containers props = containers props' ->
  (forall n, externalRefs props n = externalRefs props' n) ->
  handleBlur props e st = handleBlur props' e st.
Proof.
  intros Hc Hrefs.
  assert (Hall : allContainers props = allContainers props')
    by (unfold allContainers; now rewrite Hc).
  assert (Hcontains : forall x,
             contains props st (allContainers props) x
             = contains props' st (allContainers props') x).
  { intros x. rewrite <- Hall. unfold contains.
    apply existsb_pointwise. intros [|n] _; cbn; [reflexivity|].
    now rewrite Hrefs. }
  unfold handleBlur. destruct (relatedTarget e) as [r|]; [|reflexivity].
  now rewrite Hcontains.
Qed.

(** ** The Initial-Focus decision *)

(** With an explicit initial-focus target that does not have the focus yet,
    the decision focuses the target and nothing else, whether or not the
    container already contains the active element, and records the element
    that is active afterwards. *)
Theorem initial_focus_explicit_target props containerElement st t :
  mounted st = true ->
  initialFocus props = Some t ->
  activeElement (document st) <> Some t ->
  let st' := useInitialFocus_microTask props containerElement st in
  trace st' = trace st ++ [FocusElementCall (Some t)]
  /\ document st' = focusElement (Some t) (document st)
  /\ previousActiveElement st'
     = activeElement (focusElement (Some t) (document st)).
Proof.
  intros Hm Hi Hactive. cbn zeta.
  unfold useInitialFocus_microTask. rewrite Hm, Hi. cbn [negb].
  destruct (strict_eq (Some t) (activeElement (document st))) eqn:E.
  - apply strict_eq_true in E. congruence.
  - cbn. auto.
Qed.

(** A decision that runs on a mounted trap always leaves Previous Active
    Element equal to the active element of the document it leaves. *)
Theorem initial_focus_records_active props containerElement st :
  mounted st = true ->
  let st' := useInitialFocus_microTask props containerElement st in
  previousActiveElement st' = activeElement (document st').
Proof.
  intros Hm. cbn zeta. unfold useInitialFocus_microTask.
  rewrite Hm. cbn [negb].
  destruct (initialFocus props) as [t|].
  - destruct (strict_eq (Some t) (activeElement (document st)));
      [reflexivity | apply tryFocus_records_active].
  - destruct (contains_active (document st) containerElement
                (activeElement (document st)));
      [reflexivity | apply tryFocus_records_active].
Qed.

(** The [watch] callback changes the state exactly when the flag is on, the
    container is rendered and one of the three watched values is not
    identical to its previous value; what it then does is queue one
    decision for the container element of that moment. *)
Theorem initial_focus_watch_gating enabled newValues prevValues st :
  let st' := useInitialFocus_watch enabled newValues prevValues st in
  (st' <> st
   <-> enabled = true /\ container st <> None
       /\ prevValues <> Some newValues)
  /\ (st' <> st ->
      exists containerElement,
        container st = Some containerElement
        /\ st' = microTask (InitialFocusTask containerElement) st).
Proof.
  cbn zeta.
  assert (Hq : forall c, microTask (InitialFocusTask c) st <> st).
  { intros c E. apply (f_equal microTasks) in E. cbn in E.
    exact (app_cons_neq _ _ _ E). }
  assert (Hcase :
    (exists c, container st = Some c /\ enabled = true
               /\ prevValues <> Some newValues
               /\ useInitialFocus_watch enabled newValues prevValues st
                  = microTask (InitialFocusTask c) st)
    \/ (useInitialFocus_watch enabled newValues prevValues st = st
        /\ ~ (enabled = true /\ container st <> None
              /\ prevValues <> Some newValues))).
  { rewrite initial_focus_scheduling.
    destruct (container st) as [c|];
      [|right; split; [reflexivity | intros (_ & E & _); congruence]].
    destruct enabled; cbn;
      [|right; split; [reflexivity | intros (E & _); discriminate E]].
    destruct prevValues as [p|]; cbn.
    - destruct (Watched_eqb p newValues) eqn:E; cbn.
      + apply Watched_eqb_eq in E. subst p. right.
        split; [reflexivity | intros (_ & _ & Hne); now apply Hne].
      + left. exists c. repeat split; auto.
        intros Heq. injection Heq as ->.
        rewrite (proj2 (Watched_eqb_eq newValues newValues) eq_refl) in E.
        discriminate E.
    - left. exists c. repeat split; auto. discriminate. }
  destruct Hcase as [(c & Hc & Hen & Hne & ->) | (-> & Hnot)].
  - split.
    + split; [|intros _; apply Hq]. intros _. rewrite Hc.
      repeat split; auto. discriminate.
    + intros _. now exists c.
  - split; [|congruence]. split; [congruence | intros Hcond; contradiction].
Qed.

(** ** Across all callbacks *)

Lemma no_focus_call_added (before after : list Effect) :
  after = before -> at_most_one_focus_call before after.
Proof. intros ->. exists []. rewrite app_nil_r. cbn. auto. Qed.

Lemma focusElement_is_one_call el st :
  at_most_one_focus_call (trace st) (trace (call_focusElement el st)).
Proof. exists [FocusElementCall el]. cbn. auto. Qed.

Lemma focusIn_is_one_call root focus options st :
  at_most_one_focus_call
    (trace st) (trace (snd (call_focusIn root focus options st))).
Proof.
  exists [FocusInCall root focus options]. unfold call_focusIn.
  destruct (focusIn root focus options (document st)). cbn. auto.
Qed.

Lemma restoreFocusIfNeeded_one_call st :
  at_most_one_focus_call (trace st) (trace (restoreFocusIfNeeded st)).
Proof.
  unfold restoreFocusIfNeeded. destruct (restoreElement st) as [el|].
  - exists [FocusElementCall (Some el)]. cbn. auto.
  - now apply no_focus_call_added.
Qed.

Lemma useRestoreFocus_watch_one_call newValue prevValue st :
  at_most_one_focus_call
    (trace st) (trace (useRestoreFocus_watch newValue prevValue st)).
Proof.
  unfold useRestoreFocus_watch.
  destruct (match prevValue with
            | Some p => Bool.eqb newValue p
            | None => false
            end); [now apply no_focus_call_added|].
  destruct newValue; [|apply restoreFocusIfNeeded_one_call].
  apply no_focus_call_added. unfold captureFocus.
  now destruct (restoreElement st).
Qed.

Lemma useInitialFocus_watch_trace enabled newValues prevValues st :
  trace (useInitialFocus_watch enabled newValues prevValues st) = trace st.
Proof.
  rewrite initial_focus_scheduling.
  destruct (container st); [|reflexivity].
  now destruct (enabled && _).
Qed.

Lemma handleFocus_redirect_one_call el e st :
  at_most_one_focus_call (trace st) (trace (handleFocus_redirect el e st)).
Proof.
  unfold handleFocus_redirect.
  destruct (direction st); apply focusIn_is_one_call.
Qed.

Lemma useInitialFocus_microTask_one_call props containerElement st :
  at_most_one_focus_call
    (trace st) (trace (useInitialFocus_microTask props containerElement st)).
Proof.
  assert (Late : forall target,
    at_most_one_focus_call
      (trace st)
      (trace (useInitialFocus_tryFocus target containerElement st))).
  { intros [el|]; unfold useInitialFocus_tryFocus.
    - exists [FocusElementCall (Some el)]. cbn. auto.
    - unfold call_focusIn.
      destruct (focusIn (Some containerElement)
                  (js_bor Focus_First Focus_NoScroll) no_options (document st))
        as [[|] d]; cbn.
      + eexists [_]. cbn. auto.
      + eexists [_; _]. rewrite <- app_assoc. cbn. auto. }
  unfold useInitialFocus_microTask.
  destruct (mounted st); cbn [negb]; [|now apply no_focus_call_added].
  destruct (initialFocus props) as [t|].
  - destruct (strict_eq _ _); [now apply no_focus_call_added | apply Late].
  - destruct (contains_active _ _ _);
      [now apply no_focus_call_added | apply Late].
Qed.

(** No callback of the component asks the browser to move focus more than
    once: whatever the event and the state, it adds at most one call of
    [focusElement] or [focusIn] to what happened before. *)
Theorem every_callback_moves_focus_at_most_once props op st :
  at_most_one_focus_call (trace st) (trace (step props op st)).
Proof.
  destruct op as [event|test e|e|e| | |newValues prevValues|newValue prevValue
                 | | ]; cbn [step].
  - unfold FocusTrap_onFocus, useFocusLock_listener.
    destruct (feature_enabled _ _); cbn [negb];
      [|now apply no_focus_call_added].
    destruct (previousActiveElement st) as [previous|];
      [|now apply no_focus_call_added].
    destruct (target event) as [t|]; [|apply focusElement_is_one_call].
    destruct (instanceofHTMLElement _ _); [|apply focusElement_is_one_call].
    destruct (contains _ _ _ _); cbn [negb].
    + exists [FocusElementCall (Some t)]. cbn. auto.
    + exists [PreventDefault; StopPropagation;
              FocusElementCall (Some previous)].
      cbn. rewrite <- !app_assoc. auto.
  - unfold handleFocus. destruct (container st) as [el|];
      [|now apply no_focus_call_added].
    destruct test; [now apply no_focus_call_added|].
    apply handleFocus_redirect_one_call.
  - unfold handleKeyDown. destruct (String.eqb _ _);
      now apply no_focus_call_added.
  - unfold handleBlur. destruct (relatedTarget e) as [r|];
      [|now apply no_focus_call_added].
    destruct (headlessuiFocusGuard _ _); [now apply no_focus_call_added|].
    destruct (contains _ _ _ _); cbn [negb]; [now apply no_focus_call_added|].
    destruct (recentlyUsedTabKey st); [apply focusIn_is_one_call|].
    destruct (target e) as [t|]; [|now apply no_focus_call_added].
    destruct (instanceofHTMLElement _ _);
      [apply focusElement_is_one_call | now apply no_focus_call_added].
  - unfold runMicroTask. destruct (microTasks st) as [|[c|el e] rest];
      [now apply no_focus_call_added| |]; cbn [runTask].
    + apply (useInitialFocus_microTask_one_call props c
               (set_microTasks rest st)).
    + apply (handleFocus_redirect_one_call el e (set_microTasks rest st)).
  - unfold runAnimationFrame. destruct (animationFrames st);
      now apply no_focus_call_added.
  - apply no_focus_call_added, useInitialFocus_watch_trace.
  - apply useRestoreFocus_watch_one_call.
  - unfold onMounted. rewrite useInitialFocus_watch_trace.
    unfold set_mounted. cbn [trace].
    apply useRestoreFocus_watch_one_call.
  - unfold onUnmounted, useRestoreFocus_onUnmounted, set_mounted.
    cbn [trace]. apply restoreFocusIfNeeded_one_call.
Qed.

Lemma call_focusIn_keeps root focus options st :
  let st' := snd (call_focusIn root focus options st) in
  previousActiveElement st' = previousActiveElement st
  /\ restoreElement st' = restoreElement st.
Proof.
  cbn zeta. unfold call_focusIn.
  destruct (focusIn root focus options (document st)). cbn. auto.
Qed.

Lemma handleFocus_redirect_keeps el e st :
  let st' := handleFocus_redirect el e st in
  previousActiveElement st' = previousActiveElement st
  /\ restoreElement st' = restoreElement st.
Proof.
  cbn zeta. unfold handleFocus_redirect.
  destruct (direction st); apply call_focusIn_keeps.
Qed.

Lemma handleBlur_keeps props e st :
  let st' := handleBlur props e st in
  previousActiveElement st' = previousActiveElement st
  /\ restoreElement st' = restoreElement st.
Proof.
  cbn zeta. unfold handleBlur.
  destruct (relatedTarget e) as [r|]; [|auto].
  destruct (headlessuiFocusGuard _ _); [auto|].
  destruct (contains _ _ _ _); cbn [negb]; [auto|].
  destruct (recentlyUsedTabKey st); [apply call_focusIn_keeps|].
  destruct (target e) as [t|]; [|auto].
  destruct (instanceofHTMLElement _ _); cbn; auto.
Qed.

Lemma useRestoreFocus_watch_keeps_previous newValue prevValue st :
  previousActiveElement (useRestoreFocus_watch newValue prevValue st)
  = previousActiveElement st.
Proof.
  unfold useRestoreFocus_watch, captureFocus, restoreFocusIfNeeded.
  destruct (match prevValue with
            | Some p => Bool.eqb newValue p
            | None => false
            end); [reflexivity|].
  destruct newValue; destruct (restoreElement st); reflexivity.
Qed.

Lemma useInitialFocus_watch_keeps enabled newValues prevValues st :
  let st' := useInitialFocus_watch enabled newValues prevValues st in
  previousActiveElement st' = previousActiveElement st
  /\ restoreElement st' = restoreElement st.
Proof.
  cbn zeta. rewrite initial_focus_scheduling.
  destruct (container st); [|auto].
  destruct (enabled && _); cbn; auto.
Qed.

Lemma useInitialFocus_microTask_keeps_restore props containerElement st :
  restoreElement (useInitialFocus_microTask props containerElement st)
  = restoreElement st.
Proof.
  assert (Late : forall target,
    restoreElement (useInitialFocus_tryFocus target containerElement st)
    = restoreElement st).
  { intros [el|]; unfold useInitialFocus_tryFocus; [reflexivity|].
    unfold call_focusIn.
    destruct (focusIn (Some containerElement)
                (js_bor Focus_First Focus_NoScroll) no_options (document st))
      as [[|] d]; reflexivity. }
  unfold useInitialFocus_microTask.
  destruct (mounted st); cbn [negb]; [|reflexivity].
  destruct (initialFocus props) as [t|].
  - destruct (strict_eq _ _); [reflexivity | apply Late].
  - destruct (contains_active _ _ _); [reflexivity | apply Late].
Qed.

(** Previous Active Element has two writers only: the window focus
    listener, and a queued initial-focus decision coming due on a mounted
    trap.  No key press, focus-out, guard, animation frame, watch callback
    or life-cycle hook changes it. *)
Theorem previous_active_element_writers props op st :
  previousActiveElement (step props op st) <> previousActiveElement st ->
  (exists event, op = WindowFocus event)
  \/ (op = MicroTaskDue
      /\ mounted st = true
      /\ exists containerElement rest,
          microTasks st = InitialFocusTask containerElement :: rest).
Proof.
  destruct op as [event|test e|e|e| | |newValues prevValues|newValue prevValue
                 | | ]; cbn [step]; intros Hchanged.
  - left. now exists event.
  - exfalso. apply Hchanged. unfold handleFocus.
    destruct (container st) as [el|]; [|reflexivity].
    destruct test; [reflexivity | apply handleFocus_redirect_keeps].
  - exfalso. apply Hchanged. unfold handleKeyDown.
    now destruct (String.eqb _ _).
  - exfalso. apply Hchanged. apply handleBlur_keeps.
  - right. split; [reflexivity|]. unfold runMicroTask in Hchanged.
    destruct (microTasks st) as [|[c|el e] rest] eqn:Hq;
      [congruence| |]; cbn [runTask] in Hchanged.
    + split; [|now exists c, rest].
      destruct (mounted st) eqn:Hm; [reflexivity|].
      exfalso. apply Hchanged.
      now rewrite initial_focus_needs_mounted.
    + exfalso. apply Hchanged.
      apply (handleFocus_redirect_keeps el e (set_microTasks rest st)).
  - exfalso. apply Hchanged. unfold runAnimationFrame.
    now destruct (animationFrames st).
  - exfalso. apply Hchanged. apply useInitialFocus_watch_keeps.
  - exfalso. apply Hchanged. apply useRestoreFocus_watch_keeps_previous.
  - exfalso. apply Hchanged. unfold onMounted.
    rewrite (proj1 (useInitialFocus_watch_keeps _ _ _ _)).
    apply useRestoreFocus_watch_keeps_previous.
  - exfalso. apply Hchanged.
    unfold onUnmounted, useRestoreFocus_onUnmounted, restoreFocusIfNeeded.
    now destruct (restoreElement st).
Qed.

(** Restore Element is written by the callbacks of [useRestoreFocus] only. *)
Lemma restoreElement_kept props op st :
  restore_focus_op op = false ->
  restoreElement (step props op st) = restoreElement st.
Proof.
  destruct op as [event|test e|e|e| | |newValues prevValues|newValue prevValue
                 | | ]; cbn [step restore_focus_op]; intros Hop;
    try discriminate Hop.
  - unfold FocusTrap_onFocus, useFocusLock_listener.
    destruct (feature_enabled _ _); cbn [negb]; [|reflexivity].
    destruct (previousActiveElement st); [|reflexivity].
    destruct (target event) as [t|]; [|reflexivity].
    destruct (instanceofHTMLElement _ _); [|reflexivity].
    now destruct (contains _ _ _ _).
  - unfold handleFocus. destruct (container st) as [el|]; [|reflexivity].
    destruct test; [reflexivity | apply handleFocus_redirect_keeps].
  - unfold handleKeyDown. now destruct (String.eqb _ _).
  - apply handleBlur_keeps.
  - unfold runMicroTask. destruct (microTasks st) as [|[c|el e] rest];
      [reflexivity| |]; cbn [runTask].
    + apply (useInitialFocus_microTask_keeps_restore props c
               (set_microTasks rest st)).
    + apply (handleFocus_redirect_keeps el e (set_microTasks rest st)).
  - unfold runAnimationFrame. now destruct (animationFrames st).
  - apply useInitialFocus_watch_keeps.
Qed.

Lemma restoreElement_kept_along history st :
  Forall (fun po => restore_focus_op (snd po) = false) history ->
  restoreElement (run history st) = restoreElement st.
Proof.
  revert st. induction history as [|[props op] history IH];
    intros st Hall; [reflexivity|].
  inversion Hall as [|? ? Hop Hrest]; subst. cbn in Hop |- *.
  fold (run history (step props op st)).
  rewrite (IH _ Hrest). now apply restoreElement_kept.
Qed.

(** Activation and deactivation of RestoreFocus bracket whatever happens in
    between: the element that was active when the flag turned on is the
    one that gets the focus when the flag turns off or the trap is
    unmounted, after any focus events, focus-outs, key presses, microtasks
    and animation frames; and if no element was active then, deactivation
    and teardown call no focus helper. *)
Theorem restore_focus_round_trip prevValue history st :
  restoreElement st = None ->
  prevValue <> Some true ->
  Forall (fun po => restore_focus_op (snd po) = false) history ->
  let active := run history (useRestoreFocus_watch true prevValue st) in
  forall st',
    st' = useRestoreFocus_watch false (Some true) active
    \/ st' = onUnmounted active ->
    restoreElement st' = None
    /\ trace st'
       = trace active
         ++ match activeElement (document st) with
            | Some a => [FocusElementCall (Some a)]
            | None => []
            end.
Proof.
  intros Hr Hprev Hhistory active st' Hst'.
  assert (Hheld : restoreElement active = activeElement (document st)).
  { subst active. rewrite restoreElement_kept_along by exact Hhistory.
    unfold useRestoreFocus_watch, captureFocus.
    destruct prevValue as [[|]|]; cbn; try congruence; now rewrite Hr. }
  assert (E : restoreElement st' = restoreElement (restoreFocusIfNeeded active)
              /\ trace st' = trace (restoreFocusIfNeeded active)).
  { destruct Hst' as [-> | ->]; split; reflexivity. }
  destruct E as [-> ->]. unfold restoreFocusIfNeeded. rewrite Hheld.
  destruct (activeElement (document st)) as [a|]; cbn.
  - auto.
  - rewrite app_nil_r. rewrite <- Hheld. auto.
Qed.

(** Focus is restored once: after the flag has turned off, the teardown
    finds nothing held and calls no focus helper. *)
Theorem restore_focus_happens_once st :
  let off := useRestoreFocus_watch false (Some true) st in
  restoreElement off = None
  /\ trace (onUnmounted off) = trace off
  /\ document (onUnmounted off) = document off.
Proof.
  cbn zeta.
  assert (Hnone : restoreElement
                    (useRestoreFocus_watch false (Some true) st) = None).
  { unfold useRestoreFocus_watch, restoreFocusIfNeeded. cbn.
    destruct (restoreElement st) eqn:E; [reflexivity | exact E]. }
  split; [exact Hnone|].
  unfold onUnmounted, useRestoreFocus_onUnmounted, restoreFocusIfNeeded.
  rewrite Hnone. cbn. auto.
Qed.

(** ** The Tab key and the focus-out handler *)

(** A Tab press decides how the next escape is handled: a focus-out that
    leaves the container set before the animation frame goes through the
    focus walker, relative to the target; the same focus-out after the frame
    focuses the target itself.  Any other key leaves the state as it is. *)
Theorem tab_key_decides_how_blur_redirects props pressed e st r t :
  key pressed = "Tab"%string ->
  relatedTarget e = Some r ->
  headlessuiFocusGuard (document st) r = false ->
  contains props st (allContainers props) r = false ->
  target e = Some t ->
  instanceofHTMLElement (document st) t = true ->
  let focus := js_bor (match direction st with
                       | Forwards => Focus_Next
                       | Backwards => Focus_Previous
                       end) Focus_WrapAround in
  let options := {| relativeTo := Some t; skipElements := [] |} in
  trace (handleBlur props e (handleKeyDown pressed st))
  = trace st ++ [FocusInCall (container st) focus options]
  /\ trace (handleBlur props e
              (runAnimationFrame (handleKeyDown pressed st)))
     = trace st ++ [FocusElementCall (Some t)]
  /\ (forall other, key other <> "Tab"%string ->
                    handleKeyDown other st = st).
Proof.
  intros Hkey Hr Hguard Hout Ht Hhtml focus options.
  assert (Hpressed : handleKeyDown pressed st
                     = requestAnimationFrame (set_recentlyUsedTabKey true st)).
  { unfold handleKeyDown. now rewrite Hkey. }
  rewrite Hpressed. split; [|split].
  - unfold handleBlur. rewrite Hr. cbn.
    change (contains props _ (allContainers props) r)
      with (contains props st (allContainers props) r).
    rewrite Hguard, Hout, Ht. cbn. unfold call_focusIn. cbn.
    destruct (focusIn (container st) _ _ (document st)). reflexivity.
  - unfold handleBlur. rewrite Hr. cbn.
    change (contains props _ (allContainers props) r)
      with (contains props st (allContainers props) r).
    rewrite Hguard, Hout, Ht. cbn. rewrite Hhtml. reflexivity.
  - intros other Hother. unfold handleKeyDown.
    apply String.eqb_neq in Hother. now rewrite Hother.
Qed.

(** ** The managers together *)

(** The lock is armed by the initial-focus decision: before an element is
    recorded the window listener lets a focus event outside the container
    set pass, and once the decision has recorded the element it found in
    place, the same event is cancelled and that element is focused. *)
Theorem lock_is_armed_by_initial_focus props containerElement event st a t :
  feature_enabled (features props) Features.FocusLock = true ->
  previousActiveElement st = None ->
  mounted st = true ->
  activeElement (document st) = Some a ->
  (initialFocus props = Some a
   \/ (initialFocus props = None
       /\ node_contains (document st) containerElement a = true)) ->
  target event = Some t ->
  instanceofHTMLElement (document st) t = true ->
  contains props st (allContainers props) t = false ->
  FocusTrap_onFocus props event st = st
  /\ trace (FocusTrap_onFocus props event
              (useInitialFocus_microTask props containerElement st))
     = trace st ++ [PreventDefault; StopPropagation;
                    FocusElementCall (Some a)].
Proof.
  intros Hen Hprev Hm Ha Hplace Ht Hhtml Hout. split.
  - unfold FocusTrap_onFocus, useFocusLock_listener. now rewrite Hen, Hprev.
  - assert (E : useInitialFocus_microTask props containerElement st
                = set_previousActiveElement (Some a) st).
    { unfold useInitialFocus_microTask. rewrite Hm, Ha. cbn [negb].
      destruct Hplace as [Hi | [Hi Hc]]; rewrite Hi.
      - now rewrite (proj2 (strict_eq_true (Some a) (Some a)) eq_refl).
      - cbn [contains_active]. now rewrite Hc. }
    assert (Hout' : contains props (set_previousActiveElement (Some a) st)
                      (allContainers props) t = false) by exact Hout.
    assert (Hhtml' : instanceofHTMLElement
                       (document (set_previousActiveElement (Some a) st)) t
                     = true) by exact Hhtml.
    rewrite E. unfold FocusTrap_onFocus, useFocusLock_listener.
    rewrite Hen, Ht, Hhtml', Hout'. cbn. now rewrite <- !app_assoc.
Qed.

(** The lock follows the focus it accepts: after a focus event on an
    element inside the container set, an escape is sent back to that
    element, not to the one recorded before. *)
Theorem lock_follows_accepted_focus props inside outside st previous t1 t2 :
  feature_enabled (features props) Features.FocusLock = true ->
  previousActiveElement st = Some previous ->
  target inside = Some t1 ->
  instanceofHTMLElement (document st) t1 = true ->
  contains props st (allContainers props) t1 = true ->
  let accepted := FocusTrap_onFocus props inside st in
  target outside = Some t2 ->
  instanceofHTMLElement (document accepted) t2 = true ->
  contains props accepted (allContainers props) t2 = false ->
  trace (FocusTrap_onFocus props outside accepted)
  = trace st ++ [FocusElementCall (Some t1); PreventDefault; StopPropagation;
                 FocusElementCall (Some t1)]
  /\ previousActiveElement (FocusTrap_onFocus props outside accepted)
     = Some t1.
Proof.
  intros Hen Hprev Ht1 Hhtml1 Hin1 accepted.
  assert (E : accepted
              = call_focusElement (Some t1)
                  (set_previousActiveElement (Some t1) st)).
  { subst accepted. unfold FocusTrap_onFocus, useFocusLock_listener.
    now rewrite Hen, Hprev, Ht1, Hhtml1, Hin1. }
  assert (Hp : previousActiveElement accepted = Some t1)
    by (rewrite E; reflexivity).
  assert (Htrace : trace accepted = trace st ++ [FocusElementCall (Some t1)])
    by (rewrite E; reflexivity).
  clearbody accepted. intros Ht2 Hhtml2 Hout2.
  unfold FocusTrap_onFocus, useFocusLock_listener.
  rewrite Hen, Hp, Ht2, Hhtml2, Hout2. cbn. rewrite Hp, Htrace.
  rewrite <- !app_assoc. auto.
Qed.

End FurtherProperties.

Section LifeCycle.

Context {Document : Type} `{FocusWalkerContract Document}.

Implicit Types (st : State Document) (props : Props).

(** A whole life of a trap with every feature on and no explicit target:
    mounting captures the active element and queues the decision; the
    decision moves focus to the first focusable descendant of the container
    and records it; unmounting gives the focus back to the captured element
    and clears it. *)
Theorem mount_focus_unmount props st c a x rest :
  features props = Features.All ->
  initialFocus props = None ->
  container st = Some c ->
  restoreElement st = None ->
  microTasks st = [] ->
  activeElement (document st) = Some a ->
  node_contains (document st) c a = false ->
  focusable_in (document st) c = x :: rest ->
  let call := FocusInCall (Some c) (js_bor Focus_First Focus_NoScroll)
                          no_options in
  let focused := run [(props, OnMounted); (props, MicroTaskDue)] st in
  let gone := step props OnUnmounted focused in
  (restoreElement focused = Some a
   /\ previousActiveElement focused = Some x
   /\ activeElement (document focused) = Some x
   /\ microTasks focused = []
   /\ trace focused = trace st ++ [call])
  /\ (trace gone = trace st ++ [call; FocusElementCall (Some a)]
      /\ restoreElement gone = None
      /\ mounted gone = false).
Proof.
  intros Hf Hi Hc Hr Hq Ha Hout Hfocusable call focused gone.
  destruct (focusIn_First_found _ _ _ _ Hfocusable) as (d' & Hcall & Hactive).
  assert (Hmounted :
    step props OnMounted st
    = microTask (InitialFocusTask c)
        (set_mounted true (set_restoreElement (Some a) st))).
  { cbn [step]. unfold onMounted. rewrite Hf.
    change (feature_enabled Features.All Features.RestoreFocus) with true.
    change (feature_enabled Features.All Features.InitialFocus) with true.
    unfold useRestoreFocus_watch, captureFocus. cbn. rewrite Hr, Ha.
    unfold useInitialFocus_watch. cbn. now rewrite Hc. }
  assert (Hfocused :
    focused
    = set_previousActiveElement (Some x)
        (emit call
           (set_document d'
              (set_microTasks []
                 (microTask (InitialFocusTask c)
                    (set_mounted true (set_restoreElement (Some a) st))))))).
  { subst focused. unfold run. cbn [fold_left fst snd]. rewrite Hmounted.
    cbn [step]. unfold runMicroTask. cbn. rewrite Hq. cbn.
    unfold useInitialFocus_microTask. cbn. rewrite Hi, Ha. cbn.
    rewrite Hout. unfold useInitialFocus_tryFocus, call_focusIn. cbn.
    rewrite Hcall. cbn. now rewrite Hactive. }
  subst gone. rewrite Hfocused. cbn. rewrite <- !app_assoc. cbn.
  repeat split; auto.
Qed.

End LifeCycle.

(** ** The further properties at work on the example page *)

Lemma contains_membership_only_witness :
  let props := example_props None Features.All in
  let st := example_state (Some 2%nat) (Some 1%nat) in
  let cs := [OwnContainer; ExternalRef 0] in
  let cs' := [ExternalRef 0; OwnContainer; ExternalRef 0] in
  (forall r, In r cs <-> In r cs')
  /\ contains props st cs 7%nat = contains props st cs' 7%nat.
Proof.
  intros props st cs cs'.
  assert (Hsame : forall r, In r cs <-> In r cs')
    by (intros r; cbn; tauto).
  split; [exact Hsame|].
  exact (contains_membership_only props st cs cs' 7%nat Hsame).
Defined.

Lemma own_container_always_counts_witness :
  let props := example_props None Features.All in
  let st := example_state (Some 2%nat) (Some 1%nat) in
  container st = Some 2%nat
  /\ node_contains (document st) 2%nat 4%nat = true
  /\ contains props st (allContainers props) 4%nat = true.
Proof.
  intros props st. do 2 (split; [reflexivity|]).
  exact (own_container_always_counts props st 2%nat 4%nat
           ltac:(reflexivity) ltac:(reflexivity)).
Defined.

(** Neither the trap root nor the one extra container is rendered. *)
Lemma unrendered_trap_redirects_everything_witness :
  let props := {| initialFocus := None;
                  features := Features.All;
                  containers := [ExternalRef 1];
                  externalRefs := fun _ => None |} in
  let st := set_previousActiveElement
              (Some 3%nat) (example_state None (Some 4%nat)) in
  let event := {| target := Some 4%nat; relatedTarget := None |} in
  container st = None
  /\ (forall r, In r (containers props) -> value props st r = None)
  /\ trace (FocusTrap_onFocus props event st)
     = [PreventDefault; StopPropagation; FocusElementCall (Some 3%nat)].
Proof.
  intros props st event. split; [reflexivity|].
  assert (Hnull : forall r, In r (containers props) -> value props st r = None).
  { intros r [<-|[]]. reflexivity. }
  split; [exact Hnull|].
  exact (proj2 (unrendered_trap_redirects_everything props event st
                  3%nat 4%nat ltac:(reflexivity) Hnull ltac:(reflexivity)
                  ltac:(reflexivity) ltac:(reflexivity) ltac:(reflexivity))).
Defined.

(** Focus lands on the [svg] link [5]. *)
Lemma focus_lock_refocuses_on_non_element_witness :
  let props := example_props None Features.All in
  let st := set_previousActiveElement
              (Some 3%nat) (example_state (Some 2%nat) (Some 5%nat)) in
  let event := {| target := Some 5%nat; relatedTarget := Some 3%nat |} in
  feature_enabled (features props) Features.FocusLock = true
  /\ previousActiveElement st = Some 3%nat
  /\ instanceofHTMLElement (document st) 5%nat = false
  /\ trace (FocusTrap_onFocus props event st)
     = [FocusElementCall (Some 3%nat)].
Proof.
  intros props st event. do 3 (split; [reflexivity|]).
  exact (proj1 (focus_lock_refocuses_on_non_element props event st 3%nat
                  ltac:(reflexivity) ltac:(reflexivity)
                  (or_intror (ex_intro _ 5%nat (conj eq_refl eq_refl))))).
Defined.

Lemma focus_lock_reasserts_previous_witness :
  let props := example_props None Features.All in
  let st := set_previousActiveElement
              (Some 3%nat) (example_state (Some 2%nat) (Some 7%nat)) in
  let event := {| target := Some 7%nat; relatedTarget := Some 3%nat |} in
  feature_enabled (features props) Features.FocusLock = true
  /\ previousActiveElement st <> None
  /\ previousActiveElement (FocusTrap_onFocus props event st) <> None.
Proof.
  intros props st event. split; [reflexivity|].
  assert (Hrec : previousActiveElement st <> None) by discriminate.
  split; [exact Hrec|].
  exact (proj1 (focus_lock_reasserts_previous props event st
                  ltac:(reflexivity) Hrec)).
Defined.

Lemma features_None_is_idle_witness :
  let props := example_props None Features.None in
  let st := example_state (Some 2%nat) (Some 1%nat) in
  features props = Features.None
  /\ restoreElement st = None
  /\ render props = [Nothing; TrapRoot; Nothing].
Proof.
  intros props st. do 2 (split; [reflexivity|]).
  exact (proj2 (proj2 (features_None_is_idle props st
                         ltac:(reflexivity) ltac:(reflexivity)))).
Defined.

(** The same click away from the input [4], with every feature and with
    none. *)
Lemma blur_handler_is_not_gated_witness :
  let st := example_state (Some 2%nat) (Some 1%nat) in
  let e := {| target := Some 4%nat; relatedTarget := Some 1%nat |} in
  containers (example_props None Features.All)
  = containers (example_props None Features.None)
  /\ handleBlur (example_props None Features.All) e st
     = handleBlur (example_props None Features.None) e st.
Proof.
  intros st e. split; [reflexivity|].
  exact (blur_handler_is_not_gated
           (example_props None Features.All)
           (example_props None Features.None) e st
           ltac:(reflexivity) ltac:(intros n; reflexivity)).
Defined.

(** The input [3] of the trap has the focus, the target is the input [4]. *)
Lemma initial_focus_explicit_target_witness :
  let props := example_props (Some 4%nat) Features.All in
  let st := example_state (Some 2%nat) (Some 3%nat) in
  mounted st = true
  /\ initialFocus props = Some 4%nat
  /\ activeElement (document st) <> Some 4%nat
  /\ trace (useInitialFocus_microTask props 2%nat st)
     = [FocusElementCall (Some 4%nat)].
Proof.
  intros props st. do 2 (split; [reflexivity|]).
  assert (Hactive : activeElement (document st) <> Some 4%nat)
    by discriminate.
  split; [exact Hactive|].
  exact (proj1 (initial_focus_explicit_target props 2%nat st 4%nat
                  ltac:(reflexivity) ltac:(reflexivity) Hactive)).
Defined.

Lemma initial_focus_records_active_witness :
  let props := example_props None Features.All in
  let st := example_state (Some 2%nat) (Some 1%nat) in
  mounted st = true
  /\ previousActiveElement (useInitialFocus_microTask props 2%nat st)
     = activeElement (document (useInitialFocus_microTask props 2%nat st)).
Proof.
  intros props st. split; [reflexivity|].
  exact (initial_focus_records_active props 2%nat st ltac:(reflexivity)).
Defined.

(** The listener accepts the button [7] of the side panel. *)
Lemma previous_active_element_writers_witness :
  let props := example_props None Features.All in
  let st := set_previousActiveElement
              (Some 3%nat) (example_state (Some 2%nat) (Some 7%nat)) in
  let op := WindowFocus {| target := Some 7%nat;
                           relatedTarget := Some 3%nat |} in
  previousActiveElement (step props op st) <> previousActiveElement st
  /\ ((exists event, op = WindowFocus event)
      \/ (op = MicroTaskDue
          /\ mounted st = true
          /\ exists containerElement rest,
              microTasks st = InitialFocusTask containerElement :: rest)).
Proof.
  intros props st op.
  assert (Hchanged : previousActiveElement (step props op st)
                     <> previousActiveElement st) by discriminate.
  split; [exact Hchanged|].
  exact (previous_active_element_writers props op st Hchanged).
Defined.

(** Between activation and teardown: a Tab press, an accepted focus event
    and a click away. *)
Lemma restore_focus_round_trip_witness :
  let props := example_props None Features.All in
  let st := example_state (Some 2%nat) (Some 1%nat) in
  let history :=
    [(props, KeyDown {| key := "Tab" |});
     (props, WindowFocus {| target := Some 4%nat; relatedTarget := None |});
     (props, FocusOut {| target := Some 4%nat;
                         relatedTarget := Some 1%nat |})] in
  let active := run history (useRestoreFocus_watch true None st) in
  restoreElement st = None
  /\ Forall (fun po => restore_focus_op (snd po) = false) history
  /\ trace (onUnmounted active)
     = trace active ++ [FocusElementCall (Some 1%nat)].
Proof.
  intros props st history active. split; [reflexivity|].
  assert (Hhistory : Forall (fun po => restore_focus_op (snd po) = false)
                            history)
    by (repeat constructor).
  split; [exact Hhistory|].
  exact (proj2 (restore_focus_round_trip None history st
                  ltac:(reflexivity) ltac:(discriminate) Hhistory
                  (onUnmounted active) (or_intror eq_refl))).
Defined.

Lemma tab_key_decides_how_blur_redirects_witness :
  let props := example_props None Features.All in
  let st := example_state (Some 2%nat) (Some 1%nat) in
  let e := {| target := Some 4%nat; relatedTarget := Some 1%nat |} in
  let pressed := {| key := "Tab" |} in
  key pressed = "Tab"%string
  /\ headlessuiFocusGuard (document st) 1%nat = false
  /\ contains props st (allContainers props) 1%nat = false
  /\ instanceofHTMLElement (document st) 4%nat = true
  /\ trace (handleBlur props e (handleKeyDown pressed st))
     = [FocusInCall (Some 2%nat) (js_bor Focus_Next Focus_WrapAround)
          {| relativeTo := Some 4%nat; skipElements := [] |}]
  /\ trace (handleBlur props e
              (runAnimationFrame (handleKeyDown pressed st)))
     = [FocusElementCall (Some 4%nat)].
Proof.
  intros props st e pressed. do 4 (split; [reflexivity|]).
  destruct (tab_key_decides_how_blur_redirects props pressed e st
              1%nat 4%nat ltac:(reflexivity) ltac:(reflexivity)
              ltac:(reflexivity) ltac:(reflexivity) ltac:(reflexivity)
              ltac:(reflexivity)) as (Hwalk & Hback & _).
  split; [exact Hwalk | exact Hback].
Defined.

(** The input [3] has the focus when the decision runs; then focus lands on
    the button [1]. *)
Lemma lock_is_armed_by_initial_focus_witness :
  let props := example_props None Features.All in
  let st := example_state (Some 2%nat) (Some 3%nat) in
  let event := {| target := Some 1%nat; relatedTarget := Some 3%nat |} in
  feature_enabled (features props) Features.FocusLock = true
  /\ previousActiveElement st = None
  /\ node_contains (document st) 2%nat 3%nat = true
  /\ contains props st (allContainers props) 1%nat = false
  /\ trace (FocusTrap_onFocus props event
              (useInitialFocus_microTask props 2%nat st))
     = [PreventDefault; StopPropagation; FocusElementCall (Some 3%nat)].
Proof.
  intros props st event. do 4 (split; [reflexivity|]).
  exact (proj2 (lock_is_armed_by_initial_focus props 2%nat event st
                  3%nat 1%nat ltac:(reflexivity) ltac:(reflexivity)
                  ltac:(reflexivity) ltac:(reflexivity)
                  (or_intror (conj eq_refl eq_refl))
                  ltac:(reflexivity) ltac:(reflexivity) ltac:(reflexivity))).
Defined.

(** Focus moves from the input [3] to the input [4], then to the button
    [1]. *)
Lemma lock_follows_accepted_focus_witness :
  let props := example_props None Features.All in
  let st := set_previousActiveElement
              (Some 3%nat) (example_state (Some 2%nat) (Some 3%nat)) in
  let inside := {| target := Some 4%nat; relatedTarget := Some 3%nat |} in
  let outside := {| target := Some 1%nat; relatedTarget := Some 4%nat |} in
  let accepted := FocusTrap_onFocus props inside st in
  contains props st (allContainers props) 4%nat = true
  /\ contains props accepted (allContainers props) 1%nat = false
  /\ previousActiveElement (FocusTrap_onFocus props outside accepted)
     = Some 4%nat.
Proof.
  intros props st inside outside accepted. do 2 (split; [reflexivity|]).
  exact (proj2 (lock_follows_accepted_focus props inside outside st
                  3%nat 4%nat 1%nat ltac:(reflexivity) ltac:(reflexivity)
                  ltac:(reflexivity) ltac:(reflexivity) ltac:(reflexivity)
                  ltac:(reflexivity) ltac:(reflexivity) ltac:(reflexivity))).
Defined.

(** The trap around [2] lives while the button [1] had the focus. *)
Lemma mount_focus_unmount_witness :
  let props := example_props None Features.All in
  let st := example_state (Some 2%nat) (Some 1%nat) in
  let focused := run [(props, OnMounted); (props, MicroTaskDue)] st in
  features props = Features.All
  /\ node_contains (document st) 2%nat 1%nat = false
  /\ focusable_in (document st) 2%nat = [3%nat; 4%nat; 5%nat]
  /\ activeElement (document focused) = Some 3%nat
  /\ trace (step props OnUnmounted focused)
     = [FocusInCall (Some 2%nat) (js_bor Focus_First Focus_NoScroll)
          no_options;
        FocusElementCall (Some 1%nat)].
Proof.
  intros props st focused. do 3 (split; [reflexivity|]).
  destruct (mount_focus_unmount props st 2%nat 1%nat 3%nat [4%nat; 5%nat]
              ltac:(reflexivity) ltac:(reflexivity) ltac:(reflexivity)
              ltac:(reflexivity) ltac:(reflexivity) ltac:(reflexivity)
              ltac:(reflexivity) ltac:(reflexivity))
    as ((_ & _ & Hactive & _) & (Htrace & _)).
  split; [exact Hactive | exact Htrace].
Defined.
